(** * roveflight: route synthesis and value-per-mile scoring

    A shallow embedding of [recommendation_tool.py] and the properties of
    its route synthesis, scoring, filtering and ranking logic.

    Conventions of the embedding:
    - a Python number is a [pynum]: an [int] ([PyInt], a [Z]) or a [float]
      ([PyFloat], the exact rational value of the double).  Every float
      operation rounds its exact result through [fl], the rounding to the
      nearest double, which is a field of the runtime interface
      [PyRuntime]; infinities and NaN are outside the model;
    - an exception is a value of [exn]; a function that can raise returns
      a [result], and a [for] loop is [for_each];
    - the standard library's [datetime.fromisoformat] and [date.isoformat]
      are fields of [PyRuntime]; timestamps are naive and counted in
      microseconds.  A concrete instance, [IsoRuntime], computes exactly
      and parses the [YYYY-MM-DD[THH:MM[:SS]]] form; it runs the examples;
    - the SQLite file behind a path is a [table], the rows of [flights] in
      row order, and a [store] maps a path to its table;
    - text is ASCII; [re.escape] is the one of Python 3.7 and later, and
      patterns are compiled by [re_compile], which covers the patterns
      the engine builds;
    - of the command-line block and of [streamlit_app.py] the computations
      are modelled, not the prompts, prints and widgets. *)

From Stdlib Require Import List ZArith QArith Qround String Ascii Bool Lia Lqa
  Sorted Permutation.
Import ListNotations.
Open Scope Z_scope.

(** ** Exceptions and results *)

Module Py.

Inductive exn : Type :=
| ValueError (msg : string)
| ReError (pattern : string).

Definition result (A : Type) : Type := (exn + A)%type.

Definition ret {A} (x : A) : result A := inr x.
Definition raise {A} (e : exn) : result A := inl e.

Definition bind {A B} (m : result A) (k : A -> result B) : result B :=
  match m with
  | inl e => inl e
  | inr x => k x
  end.

(** A [for] loop over [xs] whose body updates the loop state [s] and may
    raise; the first exception leaves the loop. *)
Fixpoint for_each {A S} (xs : list A) (body : A -> S -> result S) (s : S)
  : result S :=
  match xs with
  | [] => ret s
  | x :: xs' => bind (body x s) (for_each xs' body)
  end.

(** ** Numbers *)

Inductive pynum : Type :=
| PyInt (z : Z)
| PyFloat (q : Q).

(** [float.__trunc__]: rounding toward zero. *)
Definition Qtrunc (q : Q) : Z := Z.quot (Qnum q) (Zpos (Qden q)).

(** Round-half-to-even of an exact rational to an integer. *)
Definition round_half_even (x : Q) : Z :=
  let f := Qfloor x in
  match Qcompare (x - inject_Z f) (1 # 2) with
  | Lt => f
  | Gt => f + 1
  | Eq => if Z.even f then f else f + 1
  end.

End Py.
Export Py.

Declare Scope py_scope.
Delimit Scope py_scope with py.
Notation "x <- m ;; k" := (bind m (fun x => k))
  (at level 61, m at next level, right associativity) : py_scope.
Open Scope py_scope.

(** ** The runtime interface *)

Class PyRuntime : Type := {
  (** rounding of an exact rational to the nearest double *)
  fl : Q -> Q;
  (** [datetime.fromisoformat]: microseconds since the epoch of a naive
      timestamp, [None] where Python raises [ValueError] *)
  datetime_fromisoformat : string -> option Z;
  (** [date.isoformat] of a day number (days since the epoch) *)
  date_isoformat : Z -> string
}.

Section Numbers.
Context {RT : PyRuntime}.

(** The exact value of a number. *)
Definition num_val (a : pynum) : Q :=
  match a with
  | PyInt z => inject_Z z
  | PyFloat q => q
  end.

(** [float(a)] as a rational; an [int] is rounded to a double. *)
Definition to_float (a : pynum) : Q :=
  match a with
  | PyInt z => fl (inject_Z z)
  | PyFloat q => q
  end.

Definition py_float (a : pynum) : pynum := PyFloat (to_float a).

(** [int(a)]. *)
Definition to_int (a : pynum) : Z :=
  match a with
  | PyInt z => z
  | PyFloat q => Qtrunc q
  end.

Definition py_int (a : pynum) : pynum := PyInt (to_int a).

(** A float literal of the source text. *)
Definition float_lit (q : Q) : pynum := PyFloat (fl q).

Definition py_add (a b : pynum) : pynum :=
  match a, b with
  | PyInt x, PyInt y => PyInt (x + y)
  | _, _ => PyFloat (fl (to_float a + to_float b))
  end.

Definition py_sub (a b : pynum) : pynum :=
  match a, b with
  | PyInt x, PyInt y => PyInt (x - y)
  | _, _ => PyFloat (fl (to_float a - to_float b))
  end.

Definition py_mul (a b : pynum) : pynum :=
  match a, b with
  | PyInt x, PyInt y => PyInt (x * y)
  | _, _ => PyFloat (fl (to_float a * to_float b))
  end.

(** True division [a / b] for [b] different from zero: always a float;
    on two ints Python rounds the exact quotient once. *)
Definition py_truediv (a b : pynum) : pynum :=
  match a, b with
  | PyInt x, PyInt y => PyFloat (fl (inject_Z x / inject_Z y))
  | _, _ => PyFloat (fl (to_float a / to_float b))
  end.

(** [a == b], [a <= b], [a < b] on numbers compare exact values. *)
Definition py_eqb (a b : pynum) : bool := Qeq_bool (num_val a) (num_val b).
Definition py_leb (a b : pynum) : bool := Qle_bool (num_val a) (num_val b).
Definition py_ltb (a b : pynum) : bool := negb (Qle_bool (num_val b) (num_val a)).

(** The exact decimal with two places nearest to [x], ties to even. *)
Definition round_ndigits2 (x : Q) : Q :=
  inject_Z (round_half_even (x * 100)) / 100.

(** [round(a, 2)]: an int is returned as it is; a float is rounded
    correctly, to the double nearest to the two-place decimal. *)
Definition py_round2 (a : pynum) : pynum :=
  match a with
  | PyInt z => PyInt z
  | PyFloat q => PyFloat (fl (round_ndigits2 q))
  end.

(** ** Metric calculator *)

Definition zero_miles_error : exn := ValueError "Miles used cannot be zero.".

Definition calculate_value_per_mile (cash_price taxes_and_fees miles_used : pynum)
  : result pynum :=
  if py_eqb miles_used (PyInt 0) then raise zero_miles_error
  else
    let value := py_truediv (py_sub cash_price taxes_and_fees) miles_used in
    ret (py_round2 (py_mul value (PyInt 100))).

(** ** Fee estimator *)

Definition international_routes : list (string * string) :=
  [("JFK", "LHR"); ("DXB", "LHR"); ("LAX", "HND")]%string.

Definition pair_eqb (p q : string * string) : bool :=
  String.eqb (fst p) (fst q) && String.eqb (snd p) (snd q).

(** [x in xs] on a list of pairs of strings. *)
Definition pair_in (p : string * string) (xs : list (string * string)) : bool :=
  existsb (pair_eqb p) xs.

Definition estimate_taxes_and_fees (origin destination : string) : pynum :=
  if pair_in (origin, destination) international_routes
  then float_lit 50
  else float_lit (56 # 5).

End Numbers.

(** ** The flight data store *)

(** A row of the [flights] table. *)
Module Flight.
Record t : Type := mk {
  airline : string;
  flight_number : string;
  route_origin : string;
  route_destination : string;
  date : string;
  departure_time : string;
  arrival_time : string;
  price : pynum;
  miles : pynum
}.
End Flight.

(** The tuple a [SELECT airline, flight_number, departure_time,
    arrival_time, price, miles] yields; the source reads it by index
    ([flight[2]] is [departure_time], [flight[3]] is [arrival_time],
    [flight[4]] is [price], [flight[5]] is [miles]). *)
Module Leg.
Record t : Type := mk {
  airline : string;
  flight_number : string;
  departure_time : string;
  arrival_time : string;
  price : pynum;
  miles : pynum
}.
End Leg.

Definition table : Type := list Flight.t.

(** The files of the data store: the [flights] table behind each path. *)
Definition store : Type := string -> table.

Definition connect (st : store) (path : string) : table := st path.

Definition default_db : string := "travel_data_with_miles.db".

Definition leg_of_flight (f : Flight.t) : Leg.t :=
  Leg.mk (Flight.airline f) (Flight.flight_number f) (Flight.departure_time f)
         (Flight.arrival_time f) (Flight.price f) (Flight.miles f).

(** [SELECT airline, flight_number, departure_time, arrival_time, price,
    miles FROM flights WHERE route_origin = ? AND route_destination = ?
    AND date = ?] *)
Definition select_legs (tbl : table) (origin destination date : string)
  : list Leg.t :=
  map leg_of_flight
    (filter (fun f => String.eqb (Flight.route_origin f) origin
                      && String.eqb (Flight.route_destination f) destination
                      && String.eqb (Flight.date f) date) tbl).

(** [SELECT DISTINCT route_destination FROM flights WHERE route_origin = ?
    AND date = ?] *)
Definition select_destinations (tbl : table) (origin date : string) : list string :=
  nodup string_dec
    (map Flight.route_destination
       (filter (fun f => String.eqb (Flight.route_origin f) origin
                         && String.eqb (Flight.date f) date) tbl)).

(** [SELECT DISTINCT route_origin FROM flights WHERE route_destination = ?
    AND date = ?] *)
Definition select_origins (tbl : table) (destination date : string) : list string :=
  nodup string_dec
    (map Flight.route_origin
       (filter (fun f => String.eqb (Flight.route_destination f) destination
                         && String.eqb (Flight.date f) date) tbl)).

Definition str_in (x : string) (xs : list string) : bool :=
  existsb (String.eqb x) xs.

(** [list(a & b)] on two sets of strings; Python leaves the order of the
    list open, the model lists the members in the order of [a]. *)
Definition set_inter (a b : list string) : list string :=
  filter (fun x => str_in x b) a.

Definition get_direct_flights (st : store) (origin destination date : string)
  : list Leg.t :=
  select_legs (connect st default_db) origin destination date.

Definition get_possible_hub_airports (st : store) (origin destination date : string)
  : list string :=
  let tbl := connect st default_db in
  let from_origin := select_destinations tbl origin date in
  let to_dest := select_origins tbl destination date in
  set_inter from_origin to_dest.

(** ** Route synthesizer *)

(** The tuple [(hub, flight1, flight2, total_price, total_miles, taxes)]. *)
Module Synth.
Record t : Type := mk {
  hub : string;
  flight1 : Leg.t;
  flight2 : Leg.t;
  total_price : pynum;
  total_miles : pynum;
  taxes : pynum
}.
End Synth.

(** The dict of one option in [recommend_best_route]. *)
Module Opt.
Record t : Type := mk {
  type : string;
  route : list (string * string);
  flights : list Leg.t;
  price : pynum;
  miles : pynum;
  taxes : pynum;
  value_per_mile : pynum
}.
End Opt.

Section Engine.
Context {RT : PyRuntime}.

Definition isoformat_error (s : string) : exn :=
  ValueError ("Invalid isoformat string: " ++ s).

(** [datetime.fromisoformat(s)] *)
Definition fromisoformat (s : string) : result Z :=
  match datetime_fromisoformat s with
  | Some t => ret t
  | None => raise (isoformat_error s)
  end.

(** [timedelta(minutes=m)], in microseconds. *)
Definition timedelta_minutes (m : Z) : Z := m * 60000000.

Definition get_synthetic_routes (st : store) (origin destination date : string)
    (hub_airports : list string) (min_layover_minutes : Z)
  : result (list Synth.t) :=
  let tbl := connect st default_db in
  for_each hub_airports (fun hub =>
    let first_legs := select_legs tbl origin hub date in
    let second_legs := select_legs tbl hub destination date in
    for_each first_legs (fun flight1 =>
      for_each second_legs (fun flight2 synthetic_routes =>
        arr1 <- fromisoformat (Leg.arrival_time flight1) ;;
        dep2 <- fromisoformat (Leg.departure_time flight2) ;;
        if dep2 <=? arr1 + timedelta_minutes min_layover_minutes
        then ret synthetic_routes
        else
          let total_price := py_add (Leg.price flight1) (Leg.price flight2) in
          let total_miles := py_add (Leg.miles flight1) (Leg.miles flight2) in
          let taxes := py_add (estimate_taxes_and_fees origin hub)
                              (estimate_taxes_and_fees hub destination) in
          ret (synthetic_routes ++
               [Synth.mk hub flight1 flight2 total_price total_miles taxes]))))
    [].

(** ** Single-date recommendation *)

(** What [recommend_best_route] returns: a [str] or a [dict]. *)
Inductive Recommendation : Type :=
| Message (s : string)
| Best (o : Opt.t).

(** [max(xs, key=key)] on a list with first element [best]: the first of
    the elements with the greatest key. *)
Fixpoint py_max_from {A} (key : A -> pynum) (best : A) (xs : list A) : A :=
  match xs with
  | [] => best
  | x :: xs' => py_max_from key (if py_ltb (key best) (key x) then x else best) xs'
  end.

(** The options [recommend_best_route] gathers, in the order it appends
    them: the direct flights, then the synthetic routes. *)
Definition gather_options (origin destination : string)
    (direct_options : list Leg.t) (synthetic_options : list Synth.t)
  : result (list Opt.t) :=
  all_options <- for_each direct_options (fun flight all_options =>
    let taxes := estimate_taxes_and_fees origin destination in
    value <- calculate_value_per_mile (Leg.price flight) taxes (Leg.miles flight) ;;
    ret (all_options ++
         [Opt.mk "Direct" [(origin, destination)] [flight]
                 (Leg.price flight) (Leg.miles flight) taxes value])) [] ;;
  for_each synthetic_options (fun s all_options =>
    value <- calculate_value_per_mile (Synth.total_price s) (Synth.taxes s)
                                      (Synth.total_miles s) ;;
    ret (all_options ++
         [Opt.mk "Synthetic"
                 [(origin, Synth.hub s); (Synth.hub s, destination)]
                 [Synth.flight1 s; Synth.flight2 s]
                 (Synth.total_price s) (Synth.total_miles s) (Synth.taxes s) value]))
    all_options.

Definition no_flights_message : string := "No flights available for that day.".

Definition recommend_best_route (st : store) (origin destination date : string)
    (hub_airports : list string) (min_layover_minutes : Z)
  : result Recommendation :=
  let direct_options := get_direct_flights st origin destination date in
  synthetic_options <- get_synthetic_routes st origin destination date
                         hub_airports min_layover_minutes ;;
  all_options <- gather_options origin destination direct_options synthetic_options ;;
  match all_options with
  | [] => ret (Message no_flights_message)
  | o :: rest => ret (Best (py_max_from Opt.value_per_mile o rest))
  end.

End Engine.

(** ** Text: [str.strip], [re.escape] and the patterns built from it

    Strings hold ASCII text; a code above 127 has no case and is no
    white space. *)

Definition code (c : ascii) : nat := nat_of_ascii c.

Definition code_in (c : ascii) (codes : list nat) : bool :=
  existsb (Nat.eqb (code c)) codes.

(** [c.isspace()]: tab, line feed, vertical tab, form feed, carriage
    return, the four separators 28 to 31, and the space. *)
Definition isspace (c : ascii) : bool :=
  code_in c [9; 10; 11; 12; 13; 28; 29; 30; 31; 32]%nat.

Fixpoint lstrip (s : string) : string :=
  match s with
  | EmptyString => EmptyString
  | String c s' => if isspace c then lstrip s' else s
  end.

Fixpoint rstrip (s : string) : string :=
  match s with
  | EmptyString => EmptyString
  | String c s' =>
      match rstrip s' with
      | EmptyString => if isspace c then EmptyString else String c EmptyString
      | r => String c r
      end
  end.

(** [s.strip()] *)
Definition strip (s : string) : string := rstrip (lstrip s).

(** The characters [re.escape] puts a backslash before:
    [()[]{}?*+-|^$\.&~#], the space, and [\t\n\r\v\f]. *)
Definition re_special (c : ascii) : bool :=
  code_in c [40; 41; 91; 93; 123; 125; 63; 42; 43; 45; 124; 94; 36; 92; 46;
             38; 126; 35; 32; 9; 10; 13; 11; 12]%nat.

Definition backslash : ascii := ascii_of_nat 92.
Definition bar : ascii := ascii_of_nat 124.

(** [re.escape(s)] *)
Fixpoint re_escape (s : string) : string :=
  match s with
  | EmptyString => EmptyString
  | String c s' =>
      if re_special c then String backslash (String c (re_escape s'))
      else String c (re_escape s')
  end.

(** ["|".join(pats)] *)
Fixpoint join_bar (pats : list string) : string :=
  match pats with
  | [] => EmptyString
  | [p] => p
  | p :: ps => (p ++ String bar (join_bar ps))%string
  end.

Definition is_alnum (c : ascii) : bool :=
  let n := code c in
  ((48 <=? n) && (n <=? 57) || (65 <=? n) && (n <=? 90)
   || (97 <=? n) && (n <=? 122))%nat.

(** The characters with a meaning of their own in a pattern, outside a
    character class: [.^$*+?{}[]()|\]. *)
Definition re_meta (c : ascii) : bool :=
  code_in c [46; 94; 36; 42; 43; 63; 123; 125; 91; 93; 40; 41; 124; 92]%nat.

Definition cons_head (c : ascii) (alts : list string) : list string :=
  match alts with
  | [] => [String c EmptyString]
  | a :: alts' => String c a :: alts'
  end.

(** [re.compile] on the patterns made of literal characters, escaped
    characters and a top-level alternation: the list of the alternatives,
    each the text it matches.  [None] stands for every other pattern: one
    that is malformed or uses an operator this model leaves out. *)
Fixpoint re_compile (p : string) : option (list string) :=
  match p with
  | EmptyString => Some [EmptyString]
  | String c p' =>
      if Ascii.eqb c backslash then
        match p' with
        | EmptyString => None
        | String d p'' =>
            if is_alnum d then None
            else option_map (cons_head d) (re_compile p'')
        end
      else if Ascii.eqb c bar then option_map (cons EmptyString) (re_compile p')
      else if re_meta c then None
      else option_map (cons_head c) (re_compile p')
  end.

(** Lower case of an ASCII letter, as [re.IGNORECASE] compares them. *)
Definition lower (c : ascii) : ascii :=
  let n := code c in
  if ((65 <=? n) && (n <=? 90))%nat then ascii_of_nat (n + 32) else c.

Fixpoint prefix_ci (p s : string) : bool :=
  match p, s with
  | EmptyString, _ => true
  | String a p', String b s' => Ascii.eqb (lower a) (lower b) && prefix_ci p' s'
  | String _ _, EmptyString => false
  end.

(** Some position of [s] starts with [p], case folded. *)
Fixpoint contains_ci (p s : string) : bool :=
  prefix_ci p s ||
  match s with
  | EmptyString => false
  | String _ s' => contains_ci p s'
  end.

(** [regex.search(s)] with [re.IGNORECASE] for a compiled alternation. *)
Definition re_search_ci (alts : list string) (s : string) : bool :=
  existsb (fun alt => contains_ci alt s) alts.

(** ** The result table of range mode *)

(** One dict appended to [rows]. *)
Module Row.
Record t : Type := mk {
  date : string;
  type : string;
  origin : string;
  destination : string;
  airline : string;
  price : pynum;
  miles : pynum;
  taxes : pynum;
  value_per_mile_cents : pynum;
  route : list (string * string);
  flights_json : list Leg.t
}.
End Row.

(** A [pandas.DataFrame]: its column labels and its rows in index order.
    Every dict the engine appends has exactly the keys of the column list
    it passes, so a row of the frame is that dict. *)
Record DataFrame : Type := mkDataFrame {
  columns : list string;
  records : list Row.t
}.

Definition cols : list string :=
  ["date"; "type"; "origin"; "destination"; "airline"; "price";
   "miles"; "taxes"; "value_per_mile_cents"; "route"; "flights_json"]%string.

(** [df.empty]: some axis has length zero. *)
Definition df_empty (df : DataFrame) : bool :=
  match columns df, records df with
  | [], _ | _, [] => true
  | _, _ => false
  end.

(** [df[mask]] for the mask [keep] computed row by row. *)
Definition df_select (keep : Row.t -> bool) (df : DataFrame) : DataFrame :=
  mkDataFrame (columns df) (filter keep (records df)).

(** A sort key: a numeric column and its [ascending] flag. *)
Definition sort_key : Type := ((Row.t -> pynum) * bool)%type.

Fixpoint lex_compare (by_ : list sort_key) (a b : Row.t) : comparison :=
  match by_ with
  | [] => Eq
  | (col, ascending) :: by' =>
      match Qcompare (num_val (col a)) (num_val (col b)) with
      | Eq => lex_compare by' a b
      | c => if ascending then c else CompOpp c
      end
  end.

Definition lex_leb (by_ : list sort_key) (a b : Row.t) : bool :=
  match lex_compare by_ a b with
  | Gt => false
  | _ => true
  end.

Fixpoint insert_row (by_ : list sort_key) (x : Row.t) (l : list Row.t) : list Row.t :=
  match l with
  | [] => [x]
  | y :: l' => if lex_leb by_ x y then x :: l else y :: insert_row by_ x l'
  end.

(** The stable sort [sort_values] does on several columns. *)
Fixpoint sort_rows (by_ : list sort_key) (l : list Row.t) : list Row.t :=
  match l with
  | [] => []
  | x :: l' => insert_row by_ x (sort_rows by_ l')
  end.

(** [df.sort_values(by, ascending=...)] *)
Definition sort_values (by_ : list sort_key) (df : DataFrame) : DataFrame :=
  mkDataFrame (columns df) (sort_rows by_ (records df)).

(** The slice [l[:n]]: for a negative [n], all but the last [-n]. *)
Definition slice_to {A} (n : Z) (l : list A) : list A :=
  if 0 <=? n then firstn (Z.to_nat n) l
  else firstn (Z.to_nat (Z.of_nat (List.length l) + n)) l.

(** [df.head(n)] *)
Definition head (n : Z) (df : DataFrame) : DataFrame :=
  mkDataFrame (columns df) (slice_to n (records df)).

(** [df.reset_index(drop=True)]: the rows are already in index order. *)
Definition reset_index (df : DataFrame) : DataFrame := df.

(** ** Range-mode recommendation *)

Section Range.
Context {RT : PyRuntime}.

(** The helpers local to [recommend_routes]; they read [db_path] and
    [min_layover_minutes] from the enclosing call. *)

Definition _get_direct_flights (st : store) (db_path : string)
    (origin destination date : string) : list Leg.t :=
  select_legs (connect st db_path) origin destination date.

Definition _get_possible_hub_airports (st : store) (db_path : string)
    (origin destination date : string) : list string :=
  let tbl := connect st db_path in
  let from_origin := select_destinations tbl origin date in
  let to_dest := select_origins tbl destination date in
  set_inter from_origin to_dest.

Definition build_synthetic_routes (st : store) (db_path : string)
    (min_layover_minutes : Z) (origin destination date : string)
    (hub_airports : list string) : result (list Synth.t) :=
  let tbl := connect st db_path in
  for_each hub_airports (fun hub =>
    let first_legs := select_legs tbl origin hub date in
    let second_legs := select_legs tbl hub destination date in
    for_each first_legs (fun flight1 =>
      for_each second_legs (fun flight2 synthetic_routes =>
        arr1 <- fromisoformat (Leg.arrival_time flight1) ;;
        dep2 <- fromisoformat (Leg.departure_time flight2) ;;
        if dep2 <=? arr1 + timedelta_minutes min_layover_minutes
        then ret synthetic_routes
        else
          let total_price := py_add (py_float (Leg.price flight1))
                                    (py_float (Leg.price flight2)) in
          let total_miles := py_add (py_int (Leg.miles flight1))
                                    (py_int (Leg.miles flight2)) in
          let taxes := py_add (estimate_taxes_and_fees origin hub)
                              (estimate_taxes_and_fees hub destination) in
          ret (synthetic_routes ++
               [Synth.mk hub flight1 flight2 total_price total_miles taxes]))))
    [].

Definition microseconds_per_day : Z := 86400000000.

(** [datetime.fromisoformat(s).date()], as a day number. *)
Definition fromisoformat_date (s : string) : result Z :=
  t <- fromisoformat s ;;
  ret (t / microseconds_per_day).

(** The days the loop [while day <= end] visits from [day = start]. *)
Definition days_from_to (start end_ : Z) : list Z :=
  map (fun i => start + Z.of_nat i) (seq 0 (Z.to_nat (end_ - start + 1))).

(** A leg as [flights_json] shows it. *)
Definition leg_json (f : Leg.t) : Leg.t :=
  Leg.mk (Leg.airline f) (Leg.flight_number f) (Leg.departure_time f)
         (Leg.arrival_time f) (py_float (Leg.price f)) (py_int (Leg.miles f)).

(** The body of the loop over the days: the rows of one day are appended
    to [rows]. *)
Definition rows_of_day (st : store) (db_path : string) (origin destination : string)
    (include_synthetic : bool) (min_layover_minutes : Z)
    (day : Z) (rows : list Row.t) : result (list Row.t) :=
  let date_str := date_isoformat day in
  rows <- for_each (_get_direct_flights st db_path origin destination date_str)
    (fun f rows =>
      let taxes := estimate_taxes_and_fees origin destination in
      vpm_cents <- calculate_value_per_mile (py_float (Leg.price f)) (py_float taxes)
                                            (py_int (Leg.miles f)) ;;
      ret (rows ++
           [Row.mk date_str "Direct" origin destination (Leg.airline f)
                   (py_float (Leg.price f)) (py_int (Leg.miles f)) (py_float taxes)
                   (py_float vpm_cents) [(origin, destination)] [leg_json f]]))
    rows ;;
  if include_synthetic then
    let hubs := _get_possible_hub_airports st db_path origin destination date_str in
    synthetic <- build_synthetic_routes st db_path min_layover_minutes
                   origin destination date_str hubs ;;
    for_each synthetic (fun s rows =>
      let f1 := Synth.flight1 s in
      let f2 := Synth.flight2 s in
      vpm_cents <- calculate_value_per_mile (py_float (Synth.total_price s))
                     (py_float (Synth.taxes s)) (py_int (Synth.total_miles s)) ;;
      ret (rows ++
           [Row.mk date_str "Synthetic" origin destination
                   (Leg.airline f1 ++ "+" ++ Leg.airline f2)%string
                   (py_float (Synth.total_price s)) (py_int (Synth.total_miles s))
                   (py_float (Synth.taxes s)) (py_float vpm_cents)
                   [(origin, Synth.hub s); (Synth.hub s, destination)]
                   [leg_json f1; leg_json f2]]))
      rows
  else ret rows.

(** The rows accumulated over the range of dates. *)
Definition accumulate_rows (st : store) (db_path : string) (origin destination : string)
    (start_date end_date : string) (include_synthetic : bool)
    (min_layover_minutes : Z) : result (list Row.t) :=
  start <- fromisoformat_date start_date ;;
  end_ <- fromisoformat_date end_date ;;
  let '(start, end_) := if end_ <? start then (end_, start) else (start, end_) in
  for_each (days_from_to start end_)
    (rows_of_day st db_path origin destination include_synthetic min_layover_minutes)
    [].

(** The patterns of the allowlist: [re.escape(str(s).strip())] for each
    [s] that is non-empty and not blank. *)
Definition allowlist_pats (airline_allowlist : list string) : list string :=
  map (fun s => re_escape (strip s))
      (filter (fun s => negb (String.eqb s "") && negb (String.eqb (strip s) ""))
              airline_allowlist).

(** [df["airline"].str.contains(pattern, case=False, regex=True, na=False)] *)
Definition airline_contains (pattern : string) (df : DataFrame) : result DataFrame :=
  match re_compile pattern with
  | Some alts => ret (df_select (fun r => re_search_ci alts (Row.airline r)) df)
  | None => raise (ReError pattern)
  end.

(** The three filters, in the order of the source. *)
Definition apply_filters (min_vpm_cents max_price : option pynum)
    (airline_allowlist : option (list string)) (df : DataFrame) : result DataFrame :=
  let df :=
    match min_vpm_cents with
    | Some m => df_select (fun r => py_leb (py_float m) (Row.value_per_mile_cents r)) df
    | None => df
    end in
  let df :=
    match max_price with
    | Some m => df_select (fun r => py_leb (Row.price r) (py_float m)) df
    | None => df
    end in
  match airline_allowlist with
  | Some ((_ :: _) as allowlist) =>
      match allowlist_pats allowlist with
      | [] => ret df
      | pats => airline_contains (join_bar pats) df
      end
  | _ => ret df
  end.

Definition by_min_fees : list sort_key :=
  [(Row.taxes, true); (Row.price, true); (Row.value_per_mile_cents, false)].

Definition by_vpm : list sort_key :=
  [(Row.value_per_mile_cents, false); (Row.price, true)].

(** The sort on the objective. *)
Definition objective_sort (objective : string) (df : DataFrame) : DataFrame :=
  if String.eqb objective "min_fees" && str_in "taxes" (columns df)
  then sort_values by_min_fees df
  else sort_values by_vpm df.

(** [if max_results: df = df.head(int(max_results))] *)
Definition truncate (max_results : Z) (df : DataFrame) : DataFrame :=
  if negb (max_results =? 0) then head max_results df else df.

Definition recommend_routes (st : store) (origin destination : string)
    (start_date end_date : string) (include_synthetic : bool)
    (min_layover_minutes : Z) (objective : string)
    (min_vpm_cents max_price : option pynum)
    (airline_allowlist : option (list string)) (max_results : Z)
    (db_path : string) : result DataFrame :=
  rows <- accumulate_rows st db_path origin destination start_date end_date
            include_synthetic min_layover_minutes ;;
  let df := mkDataFrame cols rows in
  df <- (if negb (df_empty df) then
           df <- apply_filters min_vpm_cents max_price airline_allowlist df ;;
           let df := objective_sort objective df in
           ret (truncate max_results df)
         else ret df) ;;
  ret (reset_index df).

End Range.

(** ** A concrete runtime: exact arithmetic and ISO 8601 text

    [fl] keeps the exact value (in lowest terms); timestamps have the form
    [YYYY-MM-DD], [YYYY-MM-DDTHH:MM] or [YYYY-MM-DDTHH:MM:SS], with a
    space allowed for the [T]. *)

Module Iso.

Definition digit (c : ascii) : option Z :=
  let n := code c in
  if ((48 <=? n) && (n <=? 57))%nat then Some (Z.of_nat (n - 48)) else None.

(** The number written by the first [n] characters of [s], all digits,
    and the rest of [s]. *)
Fixpoint digits (n : nat) (acc : Z) (s : string) : option (Z * string) :=
  match n with
  | O => Some (acc, s)
  | S n' =>
      match s with
      | String c s' =>
          match digit c with
          | Some d => digits n' (10 * acc + d) s'
          | None => None
          end
      | EmptyString => None
      end
  end.

Definition expect (c : ascii) (s : string) : option string :=
  match s with
  | String d s' => if Ascii.eqb c d then Some s' else None
  | EmptyString => None
  end.

Definition is_leap (y : Z) : bool :=
  ((y mod 4 =? 0) && negb (y mod 100 =? 0)) || (y mod 400 =? 0).

Definition days_in_month (y m : Z) : Z :=
  if m =? 2 then (if is_leap y then 29 else 28)
  else if (m =? 4) || (m =? 6) || (m =? 9) || (m =? 11) then 30
  else 31.

(** Days from 1970-01-01 to the civil date [y-m-d]. *)
Definition days_from_civil (y m d : Z) : Z :=
  let y' := if m <=? 2 then y - 1 else y in
  let era := y' / 400 in
  let yoe := y' - era * 400 in
  let doy := (153 * (if 2 <? m then m - 3 else m + 9) + 2) / 5 + d - 1 in
  let doe := yoe * 365 + yoe / 4 - yoe / 100 + doy in
  era * 146097 + doe - 719468.

(** The civil date of a day number. *)
Definition civil_from_days (z : Z) : Z * Z * Z :=
  let z := z + 719468 in
  let era := z / 146097 in
  let doe := z - era * 146097 in
  let yoe := (doe - doe / 1460 + doe / 36524 - doe / 146096) / 365 in
  let doy := doe - (365 * yoe + yoe / 4 - yoe / 100) in
  let mp := (5 * doy + 2) / 153 in
  let d := doy - (153 * mp + 2) / 5 + 1 in
  let m := if mp <? 10 then mp + 3 else mp - 9 in
  let y := yoe + era * 400 in
  ((if m <=? 2 then y + 1 else y), m, d).

Definition parse_date (s : string) : option (Z * string) :=
  match digits 4 0 s with
  | Some (y, s) =>
      match expect "-" s with
      | Some s =>
          match digits 2 0 s with
          | Some (m, s) =>
              match expect "-" s with
              | Some s =>
                  match digits 2 0 s with
                  | Some (d, s) =>
                      if (1 <=? y) && (1 <=? m) && (m <=? 12) && (1 <=? d)
                         && (d <=? days_in_month y m)
                      then Some (days_from_civil y m d, s) else None
                  | None => None
                  end
              | None => None
              end
          | None => None
          end
      | None => None
      end
  | None => None
  end.

(** Seconds into the day written as [HH:MM] or [HH:MM:SS]. *)
Definition parse_time (s : string) : option Z :=
  match digits 2 0 s with
  | Some (h, s) =>
      match expect ":" s with
      | Some s =>
          match digits 2 0 s with
          | Some (mi, EmptyString) =>
              if (h <=? 23) && (mi <=? 59) then Some (h * 3600 + mi * 60) else None
          | Some (mi, s) =>
              match expect ":" s with
              | Some s =>
                  match digits 2 0 s with
                  | Some (se, EmptyString) =>
                      if (h <=? 23) && (mi <=? 59) && (se <=? 59)
                      then Some (h * 3600 + mi * 60 + se) else None
                  | _ => None
                  end
              | None => None
              end
          | None => None
          end
      | None => None
      end
  | None => None
  end.

Definition fromisoformat (s : string) : option Z :=
  match parse_date s with
  | Some (days, EmptyString) => Some (days * 86400000000)
  | Some (days, String sep s') =>
      if Ascii.eqb sep "T" || Ascii.eqb sep " " then
        match parse_time s' with
        | Some secs => Some (days * 86400000000 + secs * 1000000)
        | None => None
        end
      else None
  | None => None
  end.

Definition digit_char (n : Z) : ascii := ascii_of_nat (48 + Z.to_nat n).

Definition pad2 (n : Z) : string :=
  String (digit_char (n / 10 mod 10)) (String (digit_char (n mod 10)) EmptyString).

Definition pad4 (n : Z) : string :=
  (pad2 (n / 100) ++ pad2 n)%string.

Definition isoformat (day : Z) : string :=
  let '(y, m, d) := civil_from_days day in
  (pad4 y ++ "-" ++ pad2 m ++ "-" ++ pad2 d)%string.

End Iso.

#[export] Instance IsoRuntime : PyRuntime := {
  fl := Qred;
  datetime_fromisoformat := Iso.fromisoformat;
  date_isoformat := Iso.isoformat
}.

(** ** Statements about the program *)

Section Statements.
Context {RT : PyRuntime}.

(** Both timestamps of the pair parse, and the second leg departs later
    than the first leg's arrival plus the minimum layover. *)
Definition layover_respected (min_layover_minutes : Z) (s : Synth.t) : Prop :=
  exists arr1 dep2,
    datetime_fromisoformat (Leg.arrival_time (Synth.flight1 s)) = Some arr1 /\
    datetime_fromisoformat (Leg.departure_time (Synth.flight2 s)) = Some dep2 /\
    dep2 > arr1 + timedelta_minutes min_layover_minutes.

Definition is_int (a : pynum) : Prop := exists z, a = PyInt z.
Definition is_float (a : pynum) : Prop := exists q, a = PyFloat q.

(** The totals of a synthetic route as [get_synthetic_routes] computes
    them. *)
Definition plain_totals (origin destination : string) (s : Synth.t) : Prop :=
  let f1 := Synth.flight1 s in
  let f2 := Synth.flight2 s in
  Synth.total_price s = py_add (Leg.price f1) (Leg.price f2) /\
  Synth.total_miles s = py_add (Leg.miles f1) (Leg.miles f2) /\
  Synth.taxes s = py_add (estimate_taxes_and_fees origin (Synth.hub s))
                         (estimate_taxes_and_fees (Synth.hub s) destination).

(** The totals as [build_synthetic_routes] computes them, from the prices
    as floats and the miles as ints. *)
Definition coerced_totals (origin destination : string) (s : Synth.t) : Prop :=
  let f1 := Synth.flight1 s in
  let f2 := Synth.flight2 s in
  Synth.total_price s = py_add (py_float (Leg.price f1)) (py_float (Leg.price f2)) /\
  Synth.total_miles s = py_add (py_int (Leg.miles f1)) (py_int (Leg.miles f2)) /\
  Synth.taxes s = py_add (estimate_taxes_and_fees origin (Synth.hub s))
                         (estimate_taxes_and_fees (Synth.hub s) destination).

(** A tuple of [get_synthetic_routes] with its totals computed again the
    way [build_synthetic_routes] does. *)
Definition coerce_totals (s : Synth.t) : Synth.t :=
  let f1 := Synth.flight1 s in
  let f2 := Synth.flight2 s in
  Synth.mk (Synth.hub s) f1 f2
    (py_add (py_float (Leg.price f1)) (py_float (Leg.price f2)))
    (py_add (py_int (Leg.miles f1)) (py_int (Leg.miles f2)))
    (Synth.taxes s).

(** The table holds prices as floats and miles as ints. *)
Definition typed_table (tbl : table) : Prop :=
  Forall (fun f => is_float (Flight.price f) /\ is_int (Flight.miles f)) tbl.

(** [fmap] on results. *)
Definition result_map {A B} (g : A -> B) (m : result A) : result B :=
  match m with
  | inl e => inl e
  | inr x => inr (g x)
  end.

(** Where the legs of the emitted tuples come from. *)
Definition legs_of (tbl : table) (origin destination date : string) (s : Synth.t) : Prop :=
  In (Synth.flight1 s) (select_legs tbl origin (Synth.hub s) date) /\
  In (Synth.flight2 s) (select_legs tbl (Synth.hub s) destination date).

(** [opt] is the dict appended for the direct flight [flight]. *)
Definition direct_option (origin destination : string) (flight : Leg.t) (opt : Opt.t)
  : Prop :=
  exists value,
    calculate_value_per_mile (Leg.price flight)
      (estimate_taxes_and_fees origin destination) (Leg.miles flight) = inr value /\
    opt = Opt.mk "Direct" [(origin, destination)] [flight]
                 (Leg.price flight) (Leg.miles flight)
                 (estimate_taxes_and_fees origin destination) value.

(** [opt] is the dict appended for the synthetic route [s]. *)
Definition synthetic_option (origin destination : string) (s : Synth.t) (opt : Opt.t)
  : Prop :=
  exists value,
    calculate_value_per_mile (Synth.total_price s) (Synth.taxes s)
      (Synth.total_miles s) = inr value /\
    opt = Opt.mk "Synthetic" [(origin, Synth.hub s); (Synth.hub s, destination)]
                 [Synth.flight1 s; Synth.flight2 s]
                 (Synth.total_price s) (Synth.total_miles s) (Synth.taxes s) value.

(** On [day], the range-mode loop meets a candidate whose mileage cost
    is zero: a direct flight of that day, or, when synthetic routes are
    included, a tuple that [build_synthetic_routes] returns for that
    day. *)
Definition zero_mile_candidate (st : store) (db_path origin destination : string)
    (include_synthetic : bool) (min_layover_minutes : Z) (day : Z) : Prop :=
  let date_str := date_isoformat day in
  (exists f, In f (_get_direct_flights st db_path origin destination date_str) /\
             to_int (Leg.miles f) = 0) \/
  (include_synthetic = true /\
   exists routes s,
     build_synthetic_routes st db_path min_layover_minutes origin destination date_str
       (_get_possible_hub_airports st db_path origin destination date_str)
     = inr routes /\
     In s routes /\ to_int (Synth.total_miles s) = 0).

(** The exceptions of the model that come from the data: the zero-miles
    error of the metric calculator and the error of a timestamp that does
    not parse. *)
Definition data_error (e : exn) : Prop :=
  e = zero_miles_error \/ exists s, e = isoformat_error s.

(** The text [s] in lower case. *)
Fixpoint lower_str (s : string) : string :=
  match s with
  | EmptyString => EmptyString
  | String c s' => String (lower c) (lower_str s')
  end.

(** [p] occurs in [s] as a literal substring, letter case aside. *)
Definition substring_ci (p s : string) : Prop :=
  exists pre post, lower_str s = (pre ++ lower_str p ++ post)%string.

(** The minimum value-per-mile filter, where given. *)
Definition passes_min_vpm (min_vpm_cents : option pynum) (r : Row.t) : Prop :=
  match min_vpm_cents with
  | Some m => (to_float m <= num_val (Row.value_per_mile_cents r))%Q
  | None => True
  end.

(** The maximum price filter, where given. *)
Definition passes_max_price (max_price : option pynum) (r : Row.t) : Prop :=
  match max_price with
  | Some m => (num_val (Row.price r) <= to_float m)%Q
  | None => True
  end.

(** The allowlist filter as the specification words it: the list is absent or
    empty, or some entry occurs in the airline label. *)
Definition stated_allowlist (airline_allowlist : option (list string)) (r : Row.t)
  : Prop :=
  match airline_allowlist with
  | None | Some [] => True
  | Some l => exists entry, In entry l /\ substring_ci entry (Row.airline r)
  end.

Definition stated_survives (min_vpm_cents max_price : option pynum)
    (airline_allowlist : option (list string)) (r : Row.t) : Prop :=
  passes_min_vpm min_vpm_cents r /\ passes_max_price max_price r /\
  stated_allowlist airline_allowlist r.

(** An entry that is not blank: something is left of it after [strip]. *)
Definition nonblank (entry : string) : Prop := strip entry <> EmptyString.

(** The allowlist filter of the code: the list is absent or has no entry
    that is not blank, or some entry that is not blank occurs, stripped,
    in the airline label. *)
Definition passes_allowlist (airline_allowlist : option (list string)) (r : Row.t)
  : Prop :=
  match airline_allowlist with
  | None => True
  | Some l =>
      (forall entry, In entry l -> ~ nonblank entry) \/
      (exists entry, In entry l /\ nonblank entry /\
                     substring_ci (strip entry) (Row.airline r))
  end.

Definition survives (min_vpm_cents max_price : option pynum)
    (airline_allowlist : option (list string)) (r : Row.t) : Prop :=
  passes_min_vpm min_vpm_cents r /\ passes_max_price max_price r /\
  passes_allowlist airline_allowlist r.

(** [p] put in front of the first alternative. *)
Definition prepend (p : string) (alts : list string) : list string :=
  match alts with
  | [] => [p]
  | a :: alts' => (p ++ a)%string :: alts'
  end.

(** The three tests of [apply_filters] on one row. *)
Definition keep_row (min_vpm_cents max_price : option pynum)
    (airline_allowlist : option (list string)) (r : Row.t) : bool :=
  match min_vpm_cents with
  | Some m => py_leb (py_float m) (Row.value_per_mile_cents r)
  | None => true
  end
  && match max_price with
     | Some m => py_leb (Row.price r) (py_float m)
     | None => true
     end
  && match airline_allowlist with
     | Some l =>
         match map strip (filter (fun s => negb (String.eqb s "")
                                           && negb (String.eqb (strip s) "")) l) with
         | [] => true
         | alts => re_search_ci alts (Row.airline r)
         end
     | None => true
     end.

(** [a] may stand before [b] under the objective "min_fees": taxes
    ascending, then price ascending, then value per mile descending. *)
Definition min_fees_order (a b : Row.t) : Prop :=
  (num_val (Row.taxes a) < num_val (Row.taxes b) \/
   (num_val (Row.taxes a) == num_val (Row.taxes b) /\
    (num_val (Row.price a) < num_val (Row.price b) \/
     (num_val (Row.price a) == num_val (Row.price b) /\
      num_val (Row.value_per_mile_cents b)
      <= num_val (Row.value_per_mile_cents a)))))%Q.

(** [a] may stand before [b] under every other objective: value per mile
    descending, then price ascending. *)
Definition vpm_order (a b : Row.t) : Prop :=
  (num_val (Row.value_per_mile_cents b) < num_val (Row.value_per_mile_cents a) \/
   (num_val (Row.value_per_mile_cents a) == num_val (Row.value_per_mile_cents b) /\
    num_val (Row.price a) <= num_val (Row.price b)))%Q.

Definition objective_order (objective : string) : Row.t -> Row.t -> Prop :=
  if String.eqb objective "min_fees" then min_fees_order else vpm_order.

End Statements.

(** ** Sample data: one direct flight from LAX to JFK and one connection
    through ORD with a layover of sixty minutes *)

Module Sample.

Definition direct : Flight.t :=
  Flight.mk "AA" "100" "LAX" "JFK" "2025-08-15"
            "2025-08-15T08:00" "2025-08-15T16:30" (PyFloat 300) (PyInt 25000).

Definition leg1 : Flight.t :=
  Flight.mk "UA" "200" "LAX" "ORD" "2025-08-15"
            "2025-08-15T08:00" "2025-08-15T14:00" (PyFloat 120) (PyInt 10000).

Definition leg2 : Flight.t :=
  Flight.mk "DL" "300" "ORD" "JFK" "2025-08-15"
            "2025-08-15T15:00" "2025-08-15T18:00" (PyFloat 150) (PyInt 12000).

Definition flights : table := [direct; leg1; leg2].

(** Every path leads to the same table. *)
Definition st : store := fun _ => flights.

(** The connection of the sample as the synthesizers emit it. *)
Definition connection : Synth.t :=
  Synth.mk "ORD" (leg_of_flight leg1) (leg_of_flight leg2)
           (PyFloat 270) (PyInt 22000) (PyFloat (112 # 5)).

(** The options of the sample with their scores, 1.16 and 1.13 cents. *)
Definition direct_option : Opt.t :=
  Opt.mk "Direct" [("LAX", "JFK")%string] [leg_of_flight direct]
         (PyFloat 300) (PyInt 25000) (PyFloat (56 # 5)) (PyFloat (29 # 25)).

Definition connection_option : Opt.t :=
  Opt.mk "Synthetic" [("LAX", "ORD"); ("ORD", "JFK")]%string
         [leg_of_flight leg1; leg_of_flight leg2]
         (PyFloat 270) (PyInt 22000) (PyFloat (112 # 5)) (PyFloat (113 # 100)).

(** A table with a second direct flight whose mileage cost is zero. *)
Definition zero_mile_flight : Flight.t :=
  Flight.mk "B6" "400" "LAX" "JFK" "2025-08-15"
            "2025-08-15T09:00" "2025-08-15T17:30" (PyFloat 250) (PyInt 0).

Definition st_zero : store := fun _ => [direct; zero_mile_flight].

(** The rows of the sample in range mode. *)
Definition direct_row : Row.t :=
  Row.mk "2025-08-15" "Direct" "LAX" "JFK" "AA"
         (PyFloat 300) (PyInt 25000) (PyFloat (56 # 5)) (PyFloat (29 # 25))
         [("LAX", "JFK")%string] [leg_of_flight direct].

Definition connection_row : Row.t :=
  Row.mk "2025-08-15" "Synthetic" "LAX" "JFK" "UA+DL"
         (PyFloat 270) (PyInt 22000) (PyFloat (112 # 5)) (PyFloat (113 # 100))
         [("LAX", "ORD"); ("ORD", "JFK")]%string
         [leg_of_flight leg1; leg_of_flight leg2].

End Sample.

(** ** Further statements: the synthesizer as a comprehension *)

Section SynthesizerStatements.
Context {RT : PyRuntime}.







End SynthesizerStatements.

(** ** More sample data *)

Module Demo.

(** A flight to DEN with a malformed arrival time; nothing leaves DEN. *)
Definition to_den : Flight.t :=
  Flight.mk "WN" "500" "LAX" "DEN" "2025-08-15"
            "2025-08-15T07:00" "around ten" (PyFloat 90) (PyInt 8000).

Definition st_den : store := fun _ => [Sample.direct; Sample.leg1; Sample.leg2; to_den].




End Demo.

(** ** Sample data with a tie *)

Module Tie.

(** A second direct flight with the price and miles of the first. *)
Definition twin : Flight.t :=
  Flight.mk "UA" "900" "LAX" "JFK" "2025-08-15"
            "2025-08-15T10:00" "2025-08-15T18:30" (PyFloat 300) (PyInt 25000).

Definition st : store := fun _ => [Sample.direct; twin].

Definition twin_option : Opt.t :=
  Opt.mk "Direct" [("LAX", "JFK")%string] [leg_of_flight twin]
         (PyFloat 300) (PyInt 25000) (PyFloat (56 # 5)) (PyFloat (29 # 25)).

End Tie.

(** ** Further statements: the rows of range mode *)

Section RowStatements.
Context {RT : PyRuntime}.

(** [r] is the row of a direct flight of the day [date_str]. *)
Definition direct_row_from (st : store) (db_path origin destination date_str : string)
    (r : Row.t) : Prop :=
  exists f,
    In f (_get_direct_flights st db_path origin destination date_str) /\
    Row.type r = "Direct"%string /\
    Row.airline r = Leg.airline f /\
    Row.route r = [(origin, destination)] /\
    Row.flights_json r = [leg_json f].

(** [r] is the row of a connection of the day [date_str]: two legs of
    the table through a hub, the second leaving later than the first
    arrives plus the minimum layover. *)
Definition synthetic_row_from (st : store) (db_path origin destination date_str : string)
    (min_layover_minutes : Z) (r : Row.t) : Prop :=
  exists s,
    legs_of (connect st db_path) origin destination date_str s /\
    layover_respected min_layover_minutes s /\
    Row.type r = "Synthetic"%string /\
    Row.airline r
    = (Leg.airline (Synth.flight1 s) ++ "+" ++ Leg.airline (Synth.flight2 s))%string /\
    Row.route r = [(origin, Synth.hub s); (Synth.hub s, destination)] /\
    Row.flights_json r = [leg_json (Synth.flight1 s); leg_json (Synth.flight2 s)].

(** Where a row of the result comes from: the query's airports, a day
    between the two dates, and a direct flight or, if synthetic routes
    are included, a connection of that day. *)
Definition row_from_query (st : store) (db_path origin destination : string)
    (include_synthetic : bool) (min_layover_minutes : Z) (first last : Z)
    (r : Row.t) : Prop :=
  Row.origin r = origin /\ Row.destination r = destination /\
  exists day,
    first <= day <= last /\ Row.date r = date_isoformat day /\
    (direct_row_from st db_path origin destination (date_isoformat day) r \/
     (include_synthetic = true /\
      synthetic_row_from st db_path origin destination (date_isoformat day)
        min_layover_minutes r)).

(** The numeric columns of a row agree: price, taxes and score are
    floats, miles is an int other than zero, and the score is the value
    per mile of the row's own price, taxes and miles. *)
Definition row_scored (r : Row.t) : Prop :=
  is_float (Row.price r) /\ is_float (Row.taxes r) /\
  is_float (Row.value_per_mile_cents r) /\
  (exists z, Row.miles r = PyInt z /\ z <> 0) /\
  calculate_value_per_mile (Row.price r) (Row.taxes r) (Row.miles r)
  = inr (Row.value_per_mile_cents r).

End RowStatements.

(** ** The command-line entry point

    The block under [if __name__ == "__main__"] without its prints.
    [int_of_str] stands for [int] on a string, [None] where it raises
    [ValueError]. *)



Section CommandLine.
Context {RT : PyRuntime}.
Variable int_of_str : string -> option Z.



End CommandLine.

(** ** The dashboard: inputs of the search and columns of the table *)

(** [s.split(sep)] for a separator of one character. *)
Fixpoint split_on (sep : ascii) (s : string) : list string :=
  match s with
  | EmptyString => [EmptyString]
  | String c s' =>
      if Ascii.eqb c sep then EmptyString :: split_on sep s'
      else match split_on sep s' with
           | [] => [String c EmptyString]
           | piece :: pieces => String c piece :: pieces
           end
  end.

Definition comma : ascii := ascii_of_nat 44.

(** [airline_allowlist_list]: [None] for a blank text, else the stripped
    pieces between commas that are not blank. *)
Definition ui_allowlist (airline_allowlist_text : string) : option (list string) :=
  if negb (String.eqb (strip airline_allowlist_text) "")
  then Some (map strip
               (filter (fun airline => negb (String.eqb (strip airline) ""))
                       (split_on comma airline_allowlist_text)))
  else None.

Section Dashboard.
Context {RT : PyRuntime}.

(** [min_vpm_cents_arg] and [max_price_arg]: a threshold that is not
    positive means no threshold. *)
Definition ui_threshold (x : pynum) : option pynum :=
  if py_leb x (PyInt 0) then None else Some x.

(** [_run_search_and_cache]: the call of the backend. *)
Definition run_search (st : store) (origin destination : string)
    (start_date end_date : string) (include_synthetic : bool)
    (min_layover_minutes : Z) (min_vpm_cents max_price : pynum)
    (airline_allowlist_text : string) (max_results : Z) : result DataFrame :=
  recommend_routes st origin destination start_date end_date include_synthetic
    min_layover_minutes "vpm" (ui_threshold min_vpm_cents) (ui_threshold max_price)
    (ui_allowlist airline_allowlist_text) max_results default_db.

(** [(dep2 - arr1).total_seconds()] for a difference in microseconds. *)
Definition total_seconds (microseconds : Z) : pynum :=
  PyFloat (fl (inject_Z microseconds / 1000000)).

(** The minutes [_leg_columns] computes for a row with two legs or more,
    [int((dep2 - arr1).total_seconds() / 60)]; [None] where the cell
    keeps the empty text: fewer than two legs, or a timestamp that does
    not parse. *)
Definition layover_minutes (legs : list Leg.t) : option Z :=
  match legs with
  | l1 :: l2 :: _ =>
      match datetime_fromisoformat (Leg.arrival_time l1),
            datetime_fromisoformat (Leg.departure_time l2) with
      | Some arr1, Some dep2 =>
          Some (to_int (py_truediv (total_seconds (dep2 - arr1)) (PyInt 60)))
      | _, _ => None
      end
  | _ => None
  end.

(** Whether the row is within the miles balance. *)
Definition within_balance (miles_balance : Z) (r : Row.t) : bool :=
  py_leb (Row.miles r) (PyInt miles_balance).

(** [view_df]: the rows shown.  [toggle] is the state of the switch
    "Show only routes within my miles", which is offered only when the
    balance is positive and some row is within it. *)
Definition view_rows (miles_balance : Z) (toggle : bool) (rows : list Row.t)
  : list Row.t :=
  let only_within :=
    if (0 <? miles_balance) && negb (Nat.eqb (List.length rows) 0) then
      if (0 <? List.length (filter (within_balance miles_balance) rows))%nat
      then toggle else false
    else false in
  let within_mask :=
    if (0 <? miles_balance) && negb (Nat.eqb (List.length rows) 0)
    then within_balance miles_balance else fun _ => false in
  if only_within && existsb within_mask rows then filter within_mask rows
  else rows.

(** The rounding to doubles keeps the order and the integers [ks]. *)
Definition fl_monotone : Prop := forall x y, (x <= y)%Q -> (fl x <= fl y)%Q.
Definition fl_exact_on (ks : list Z) : Prop :=
  Forall (fun k => (fl (inject_Z k) == inject_Z k)%Q) ks.

End Dashboard.

(** ** The dashboard: the final sort *)

Section DashboardSort.
Context {RT : PyRuntime}.

Definition by_min_price : list sort_key :=
  [(Row.price, true); (Row.taxes, true); (Row.value_per_mile_cents, false)].

(** The global sort on the objective chosen in the dashboard, for a table
    that has the columns of the backend (the score under its new name);
    both calls ask for [kind="mergesort"], a stable sort. *)
Definition ui_sort (ui_objective : string) (rows : list Row.t) : list Row.t :=
  if String.eqb ui_objective "Minimum Price"
  then sort_rows by_min_price rows
  else sort_rows by_vpm rows.

(** [a] may stand before [b] under "Minimum Price": price ascending,
    then taxes ascending, then value per mile descending. *)
Definition min_price_order (a b : Row.t) : Prop :=
  (num_val (Row.price a) < num_val (Row.price b) \/
   (num_val (Row.price a) == num_val (Row.price b) /\
    (num_val (Row.taxes a) < num_val (Row.taxes b) \/
     (num_val (Row.taxes a) == num_val (Row.taxes b) /\
      num_val (Row.value_per_mile_cents b)
      <= num_val (Row.value_per_mile_cents a)))))%Q.

End DashboardSort.

(** ** Further statements: the two modes side by side *)



(** * Properties *)

Example iso_parse_example :
  Iso.fromisoformat "2025-08-15T14:00" = Some (1755266400 * 1000000).
Proof. vm_compute. reflexivity. Qed.

Example iso_format_example :
  Iso.isoformat (1755266400 / 86400) = "2025-08-15"%string.
Proof. vm_compute. reflexivity. Qed.

(** ** Loops *)

Section Loops.
Context {A S : Type}.

Lemma bind_inr {X Y} (m : result X) (k : X -> result Y) (y : Y) :
  bind m k = inr y -> exists x, m = inr x /\ k x = inr y.
Proof.
  destruct m as [e | x]; simpl; intros H; [discriminate | eauto].
Qed.

Lemma bind_inl {X Y} (m : result X) (k : X -> result Y) (e : exn) :
  bind m k = inl e -> m = inl e \/ exists x, m = inr x /\ k x = inl e.
Proof.
  destruct m as [e' | x]; simpl; intros H; [left; congruence | right; eauto].
Qed.

(** A property of the loop state that every iteration keeps holds when the
    loop ends. *)
Lemma for_each_invariant (P : S -> Prop) (body : A -> S -> result S) (xs : list A) :
  (forall x s s', In x xs -> P s -> body x s = inr s' -> P s') ->
  forall s s', P s -> for_each xs body s = inr s' -> P s'.
Proof.
  induction xs as [| x xs IH]; simpl; intros Hstep s s' Hs Hrun.
  - inversion Hrun; subst; exact Hs.
  - apply bind_inr in Hrun as (s1 & H1 & H2).
    apply (IH (fun y t t' Hy => Hstep y t t' (or_intror Hy)) s1 s'); [| exact H2].
    apply (Hstep x s s1); auto.
Qed.

(** The same for the exceptions a loop can leave with. *)
Lemma for_each_raises_only (E : exn -> Prop) (body : A -> S -> result S) (xs : list A) :
  (forall x s e, In x xs -> body x s = inl e -> E e) ->
  forall s e, for_each xs body s = inl e -> E e.
Proof.
  induction xs as [| x xs IH]; simpl; intros Hstep s e Hrun.
  - discriminate.
  - apply bind_inl in Hrun as [H1 | (s1 & H1 & H2)].
    + apply (Hstep x s e); auto.
    + apply (IH (fun y t e' Hy => Hstep y t e' (or_intror Hy)) s1 e H2).
Qed.

(** An iteration that raises in every state makes the loop raise. *)
Lemma for_each_raises (body : A -> S -> result S) (xs : list A) (x : A) :
  In x xs ->
  (forall s, exists e, body x s = inl e) ->
  forall s, exists e, for_each xs body s = inl e.
Proof.
  induction xs as [| y xs IH]; simpl; intros Hin Hx s; [contradiction |].
  destruct (body y s) as [e | s1] eqn:Hy; simpl.
  - eauto.
  - destruct Hin as [-> | Hin].
    + destruct (Hx s) as (e & He). congruence.
    + apply IH; assumption.
Qed.

End Loops.

(** Two loops over the same list whose bodies keep a relation between
    their states end in related states, or raise the same exception. *)
Lemma for_each_related {A S T} (R : S -> T -> Prop)
    (body1 : A -> S -> result S) (body2 : A -> T -> result T) (xs : list A) :
  (forall x s t, In x xs -> R s t ->
     match body1 x s, body2 x t with
     | inr s', inr t' => R s' t'
     | inl e1, inl e2 => e1 = e2
     | _, _ => False
     end) ->
  forall s t, R s t ->
    match for_each xs body1 s, for_each xs body2 t with
    | inr s', inr t' => R s' t'
    | inl e1, inl e2 => e1 = e2
    | _, _ => False
    end.
Proof.
  induction xs as [| x xs IH]; simpl; intros Hstep s t Hst.
  - exact Hst.
  - specialize (Hstep x s t (or_introl eq_refl) Hst) as Hx.
    destruct (body1 x s) as [e1 | s1], (body2 x t) as [e2 | t1]; simpl;
      try contradiction; try exact Hx.
    apply IH; [| exact Hx].
    intros y s0 t0 Hy. apply Hstep. right; exact Hy.
Qed.

(** ** The layover rule *)

Section Layover.
Context {RT : PyRuntime}.

Lemma fromisoformat_inr (s : string) (t : Z) :
  fromisoformat s = inr t -> datetime_fromisoformat s = Some t.
Proof.
  unfold fromisoformat, ret, raise.
  destruct (datetime_fromisoformat s); congruence.
Qed.

(** One pass of the innermost loop: the list either stays as it is or
    gains one tuple of the two legs at hand, and then the legs respect
    the layover. *)
Lemma pair_step (m : Z) (hub : string) (flight1 flight2 : Leg.t)
    (tp tm tx : pynum) (acc acc' : list Synth.t) :
  (arr1 <- fromisoformat (Leg.arrival_time flight1) ;;
   dep2 <- fromisoformat (Leg.departure_time flight2) ;;
   if dep2 <=? arr1 + timedelta_minutes m then ret acc
   else ret (acc ++ [Synth.mk hub flight1 flight2 tp tm tx])) = inr acc' ->
  acc' = acc \/
  (acc' = acc ++ [Synth.mk hub flight1 flight2 tp tm tx] /\
   layover_respected m (Synth.mk hub flight1 flight2 tp tm tx)).
Proof.
  intros H.
  apply bind_inr in H as (arr1 & Harr & H).
  apply bind_inr in H as (dep2 & Hdep & H).
  destruct (dep2 <=? arr1 + timedelta_minutes m) eqn:Hcmp;
    inversion H; subst; clear H.
  - left; reflexivity.
  - right; split; [reflexivity |].
    exists arr1, dep2; simpl.
    repeat split; try (apply fromisoformat_inr; assumption).
    apply Z.leb_gt in Hcmp. lia.
Qed.

Lemma get_synthetic_routes_layover (st : store) (origin destination date : string)
    (hubs : list string) (m : Z) (routes : list Synth.t) :
  get_synthetic_routes st origin destination date hubs m = inr routes ->
  Forall (layover_respected m) routes.
Proof.
  unfold get_synthetic_routes.
  apply for_each_invariant; [| constructor].
  intros hub s s' _ Hs. revert s s' Hs.
  apply for_each_invariant.
  intros f1 s s' _ Hs. revert s s' Hs.
  apply for_each_invariant.
  intros f2 s s' _ Hs Hstep.
  apply pair_step in Hstep as [-> | [-> Hok]]; [exact Hs |].
  apply Forall_app; split; [exact Hs | constructor; [exact Hok | constructor]].
Qed.

Lemma build_synthetic_routes_layover (st : store) (db_path : string)
    (origin destination date : string)
    (hubs : list string) (m : Z) (routes : list Synth.t) :
  build_synthetic_routes st db_path m origin destination date hubs = inr routes ->
  Forall (layover_respected m) routes.
Proof.
  unfold build_synthetic_routes.
  apply for_each_invariant; [| constructor].
  intros hub s s' _ Hs. revert s s' Hs.
  apply for_each_invariant.
  intros f1 s s' _ Hs. revert s s' Hs.
  apply for_each_invariant.
  intros f2 s s' _ Hs Hstep.
  apply pair_step in Hstep as [-> | [-> Hok]]; [exact Hs |].
  apply Forall_app; split; [exact Hs | constructor; [exact Hok | constructor]].
Qed.

(** C1. Every synthetic itinerary that [get_synthetic_routes] or
    [build_synthetic_routes] returns has a second leg that departs
    strictly later than the first leg's arrival plus the minimum layover:
    both timestamps parse and [dep2 > arr1 + timedelta(minutes=m)], so a
    pair with [dep2] equal to [arr1 + timedelta(minutes=m)] is never
    among them. *)
Theorem synthesizers_respect_layover
    (st : store) (origin destination date : string) (hubs : list string) (m : Z) :
  (forall routes,
     get_synthetic_routes st origin destination date hubs m = inr routes ->
     Forall (layover_respected m) routes) /\
  (forall db_path routes,
     build_synthetic_routes st db_path m origin destination date hubs = inr routes ->
     Forall (layover_respected m) routes).
Proof.
  split.
  - intros routes. apply get_synthetic_routes_layover.
  - intros db_path routes. apply build_synthetic_routes_layover.
Qed.

End Layover.

(** On the sample, a minimum layover of 45 minutes keeps the connection;
    the layover is 60 minutes, so a minimum of exactly 60 drops it, and so
    does 90. *)
Example sample_layover_45 :
  get_synthetic_routes Sample.st "LAX" "JFK" "2025-08-15" ["ORD"%string] 45
  = inr [Sample.connection].
Proof. vm_compute. reflexivity. Qed.

Example sample_layover_boundary :
  get_synthetic_routes Sample.st "LAX" "JFK" "2025-08-15" ["ORD"%string] 60 = inr []
  /\ build_synthetic_routes Sample.st default_db 60 "LAX" "JFK" "2025-08-15"
       ["ORD"%string] = inr [].
Proof. split; vm_compute; reflexivity. Qed.

Example sample_layover_90 :
  get_synthetic_routes Sample.st "LAX" "JFK" "2025-08-15" ["ORD"%string] 90 = inr [].
Proof. vm_compute. reflexivity. Qed.

Lemma synthesizers_respect_layover_witness :
  get_synthetic_routes Sample.st "LAX" "JFK" "2025-08-15" ["ORD"%string] 45
    = inr [Sample.connection] /\
  build_synthetic_routes Sample.st default_db 45 "LAX" "JFK" "2025-08-15" ["ORD"%string]
    = inr [Sample.connection] /\
  Forall (layover_respected 45) [Sample.connection].
Proof.
  split; [vm_compute; reflexivity |].
  split; [vm_compute; reflexivity |].
  apply (proj1 (synthesizers_respect_layover Sample.st "LAX" "JFK" "2025-08-15"
                  ["ORD"%string] 45)).
  vm_compute; reflexivity.
Defined.

(** ** The metric calculator *)

(** [round_half_even x] is an integer nearest to [x], and the even one
    when [x] lies halfway between two integers. *)
Lemma round_half_even_nearest (x : Q) :
  (inject_Z (round_half_even x) - (1 # 2) <= x <= inject_Z (round_half_even x) + (1 # 2))%Q.
Proof.
  unfold round_half_even.
  pose proof (Qfloor_le x) as Hlo.
  pose proof (Qlt_floor x) as Hhi.
  rewrite inject_Z_plus in Hhi. change (inject_Z 1) with 1%Q in Hhi.
  destruct (Qcompare (x - inject_Z (Qfloor x)) (1 # 2)) eqn:Hc.
  - apply Qeq_alt in Hc.
    destruct (Z.even (Qfloor x));
      [| rewrite inject_Z_plus; change (inject_Z 1) with 1%Q]; lra.
  - apply Qlt_alt in Hc. lra.
  - apply Qgt_alt in Hc.
    rewrite inject_Z_plus; change (inject_Z 1) with 1%Q. lra.
Qed.

Lemma round_half_even_tie (x : Q) :
  (x == inject_Z (round_half_even x) - (1 # 2) \/
   x == inject_Z (round_half_even x) + (1 # 2))%Q ->
  Z.even (round_half_even x) = true.
Proof.
  unfold round_half_even.
  pose proof (Qfloor_le x) as Hlo.
  pose proof (Qlt_floor x) as Hhi.
  rewrite inject_Z_plus in Hhi. change (inject_Z 1) with 1%Q in Hhi.
  destruct (Qcompare (x - inject_Z (Qfloor x)) (1 # 2)) eqn:Hc.
  - intros _. destruct (Z.even (Qfloor x)) eqn:He; [exact He |].
    rewrite Z.even_add, He. reflexivity.
  - apply Qlt_alt in Hc. intros [H | H]; lra.
  - apply Qgt_alt in Hc.
    rewrite inject_Z_plus; change (inject_Z 1) with 1%Q. intros [H | H]; lra.
Qed.

Section Metric.
Context {RT : PyRuntime}.

Lemma py_eqb_zero (m : pynum) : py_eqb m (PyInt 0) = true <-> (num_val m == 0)%Q.
Proof.
  unfold py_eqb. rewrite Qeq_bool_iff. reflexivity.
Qed.

(** C2. For miles [M > 0], [calculate_value_per_mile P T M] returns the
    value of [round(((P - T) / M) * 100, 2)].  The function is a function
    of its three arguments alone.  The rounding follows one policy: the
    result is the double of [n / 100], where [n] is an integer nearest to
    the hundredfold of the rounded argument, and the even one at an exact
    half. *)
Theorem calculate_value_per_mile_formula (P T M : pynum) :
  (0 < num_val M)%Q ->
  let x := py_mul (py_truediv (py_sub P T) M) (PyInt 100) in
  calculate_value_per_mile P T M = inr (py_round2 x) /\
  exists n : Z,
    py_round2 x = PyFloat (fl (inject_Z n / 100)) /\
    (inject_Z n - (1 # 2) <= num_val x * 100 <= inject_Z n + (1 # 2))%Q /\
    ((num_val x * 100 == inject_Z n - (1 # 2) \/
      num_val x * 100 == inject_Z n + (1 # 2))%Q -> Z.even n = true).
Proof.
  intros HM x. split.
  - unfold calculate_value_per_mile.
    destruct (py_eqb M (PyInt 0)) eqn:Hz; [| reflexivity].
    apply py_eqb_zero in Hz. lra.
  - assert (Hx : exists q, x = PyFloat q).
    { unfold x, py_truediv, py_mul.
      destruct (py_sub P T), M; eexists; reflexivity. }
    destruct Hx as (q & Hq). rewrite Hq. simpl.
    exists (round_half_even (q * 100)). split; [reflexivity |].
    split; [apply round_half_even_nearest | apply round_half_even_tie].
Qed.

End Metric.

Lemma calculate_value_per_mile_formula_witness :
  (0 < num_val (PyInt 25000))%Q /\
  calculate_value_per_mile (PyFloat 300) (PyFloat (56 # 5)) (PyInt 25000)
  = inr (PyFloat (29 # 25)).
Proof.
  split; [reflexivity |].
  destruct (calculate_value_per_mile_formula (PyFloat 300) (PyFloat (56 # 5))
              (PyInt 25000)) as [H _]; [reflexivity |].
  rewrite H. vm_compute. reflexivity.
Defined.

(** The rounding at exact halves: 0.125 and 0.375 cents per mile. *)
Example round_half_down_to_even :
  calculate_value_per_mile (PyFloat (1 # 800)) (PyFloat 0) (PyInt 1) = inr (PyFloat (3 # 25)).
Proof. vm_compute. reflexivity. Qed.

Example round_half_up_to_even :
  calculate_value_per_mile (PyFloat (3 # 800)) (PyFloat 0) (PyInt 1) = inr (PyFloat (19 # 50)).
Proof. vm_compute. reflexivity. Qed.

(** ** The fee estimator *)

Section Fees.
Context {RT : PyRuntime}.

Lemma pair_in_spec (p : string * string) (xs : list (string * string)) :
  pair_in p xs = true <-> In p xs.
Proof.
  unfold pair_in. rewrite existsb_exists. split.
  - intros (q & Hq & Heq). unfold pair_eqb in Heq.
    apply andb_true_iff in Heq as [H1 H2].
    apply String.eqb_eq in H1, H2.
    destruct p, q; simpl in *; subst; exact Hq.
  - intros Hin. exists p. split; [exact Hin |].
    unfold pair_eqb. rewrite !String.eqb_refl. reflexivity.
Qed.

(** C5. [estimate_taxes_and_fees] is a total function of the ordered pair
    with two values: the float 50.00 for a pair of the international list
    and the float 11.20 for every other pair; the pair (LHR, JFK), the
    reverse of a listed one, gets 11.20. *)
Theorem estimate_taxes_and_fees_two_constants (origin destination : string) :
  (In (origin, destination) international_routes ->
   estimate_taxes_and_fees origin destination = float_lit 50) /\
  (~ In (origin, destination) international_routes ->
   estimate_taxes_and_fees origin destination = float_lit (56 # 5)) /\
  (estimate_taxes_and_fees origin destination = float_lit 50 \/
   estimate_taxes_and_fees origin destination = float_lit (56 # 5)) /\
  estimate_taxes_and_fees "JFK" "LHR" = float_lit 50 /\
  estimate_taxes_and_fees "LHR" "JFK" = float_lit (56 # 5).
Proof.
  unfold estimate_taxes_and_fees.
  repeat split; try reflexivity.
  - intros Hin. apply pair_in_spec in Hin. rewrite Hin. reflexivity.
  - intros Hout.
    destruct (pair_in (origin, destination) international_routes) eqn:Hp;
      [| reflexivity].
    apply pair_in_spec in Hp. contradiction.
  - destruct (pair_in (origin, destination) international_routes); auto.
Qed.

End Fees.

Lemma estimate_taxes_and_fees_two_constants_witness :
  In ("DXB", "LHR")%string international_routes /\
  ~ In ("LHR", "DXB")%string international_routes /\
  estimate_taxes_and_fees "DXB" "LHR" = PyFloat 50 /\
  estimate_taxes_and_fees "LHR" "DXB" = PyFloat (56 # 5).
Proof.
  assert (Hin : In ("DXB", "LHR")%string international_routes)
    by (simpl; auto).
  assert (Hout : ~ In ("LHR", "DXB")%string international_routes)
    by (simpl; intros [H | [H | [H | []]]]; discriminate).
  split; [exact Hin |]. split; [exact Hout |]. split.
  - exact (proj1 (estimate_taxes_and_fees_two_constants "DXB" "LHR") Hin).
  - exact (proj1 (proj2 (estimate_taxes_and_fees_two_constants "LHR" "DXB")) Hout).
Defined.

(** ** The totals of a synthetic route *)

Section Totals.
Context {RT : PyRuntime}.

Lemma get_synthetic_routes_totals (st : store) (origin destination date : string)
    (hubs : list string) (m : Z) (routes : list Synth.t) :
  get_synthetic_routes st origin destination date hubs m = inr routes ->
  Forall (fun s => plain_totals origin destination s /\
                   legs_of (connect st default_db) origin destination date s) routes.
Proof.
  unfold get_synthetic_routes.
  apply for_each_invariant; [| constructor].
  intros hub s s' _ Hs. revert s s' Hs.
  apply for_each_invariant.
  intros f1 s s' Hf1 Hs. revert s s' Hs.
  apply for_each_invariant.
  intros f2 s s' Hf2 Hs Hstep.
  apply pair_step in Hstep as [-> | [-> _]]; [exact Hs |].
  apply Forall_app; split; [exact Hs |].
  constructor; [| constructor].
  split; [repeat split | split; assumption].
Qed.

Lemma build_synthetic_routes_totals (st : store) (db_path : string)
    (origin destination date : string)
    (hubs : list string) (m : Z) (routes : list Synth.t) :
  build_synthetic_routes st db_path m origin destination date hubs = inr routes ->
  Forall (fun s => coerced_totals origin destination s /\
                   legs_of (connect st db_path) origin destination date s) routes.
Proof.
  unfold build_synthetic_routes.
  apply for_each_invariant; [| constructor].
  intros hub s s' _ Hs. revert s s' Hs.
  apply for_each_invariant.
  intros f1 s s' Hf1 Hs. revert s s' Hs.
  apply for_each_invariant.
  intros f2 s s' Hf2 Hs Hstep.
  apply pair_step in Hstep as [-> | [-> _]]; [exact Hs |].
  apply Forall_app; split; [exact Hs |].
  constructor; [| constructor].
  split; [repeat split | split; assumption].
Qed.

Lemma py_int_of_int (a : pynum) : is_int a -> py_int a = a.
Proof. intros (z & ->). reflexivity. Qed.

Lemma py_float_of_float (a : pynum) : is_float a -> py_float a = a.
Proof. intros (q & ->). reflexivity. Qed.

(** C6. Every tuple the synthesizers emit carries the sum of its two
    legs' prices, the sum of its two legs' miles, and as taxes the sum of
    the two per-segment estimates, [estimate_taxes_and_fees(origin, hub) +
    estimate_taxes_and_fees(hub, destination)].  [get_synthetic_routes]
    adds the stored values; [build_synthetic_routes] adds the prices as
    floats and the miles as ints, which for miles stored as ints is the
    sum of the stored miles. *)
Theorem synthetic_totals_are_sums
    (st : store) (origin destination date : string) (hubs : list string) (m : Z) :
  (forall routes,
     get_synthetic_routes st origin destination date hubs m = inr routes ->
     Forall (plain_totals origin destination) routes) /\
  (forall db_path routes,
     build_synthetic_routes st db_path m origin destination date hubs = inr routes ->
     Forall (fun s =>
       coerced_totals origin destination s /\
       (is_int (Leg.miles (Synth.flight1 s)) -> is_int (Leg.miles (Synth.flight2 s)) ->
        Synth.total_miles s
        = py_add (Leg.miles (Synth.flight1 s)) (Leg.miles (Synth.flight2 s))))
       routes).
Proof.
  split.
  - intros routes H. apply get_synthetic_routes_totals in H.
    eapply Forall_impl; [| exact H]. intros s [Hs _]; exact Hs.
  - intros db_path routes H. apply build_synthetic_routes_totals in H.
    eapply Forall_impl; [| exact H]. intros s [Hs _]. split; [exact Hs |].
    intros H1 H2. destruct Hs as (_ & Hm & _).
    rewrite Hm, (py_int_of_int _ H1), (py_int_of_int _ H2). reflexivity.
Qed.

End Totals.

Lemma synthetic_totals_are_sums_witness :
  get_synthetic_routes Sample.st "LAX" "JFK" "2025-08-15" ["ORD"%string] 45
    = inr [Sample.connection] /\
  build_synthetic_routes Sample.st default_db 45 "LAX" "JFK" "2025-08-15" ["ORD"%string]
    = inr [Sample.connection] /\
  Forall (plain_totals "LAX" "JFK") [Sample.connection].
Proof.
  split; [vm_compute; reflexivity |].
  split; [vm_compute; reflexivity |].
  apply (proj1 (synthetic_totals_are_sums Sample.st "LAX" "JFK" "2025-08-15"
                  ["ORD"%string] 45)).
  vm_compute; reflexivity.
Defined.

(** The taxes of the connection of the sample are the two estimates added,
    22.40, and not the one estimate for LAX to JFK, 11.20. *)
Example sample_taxes_two_calls :
  Synth.taxes Sample.connection
    = py_add (estimate_taxes_and_fees "LAX" "ORD") (estimate_taxes_and_fees "ORD" "JFK")
  /\ Synth.taxes Sample.connection = PyFloat (112 # 5)
  /\ estimate_taxes_and_fees "LAX" "JFK" = PyFloat (56 # 5).
Proof. repeat split; vm_compute; reflexivity. Qed.

(** ** The two synthesizers *)

Section TwoSynthesizers.
Context {RT : PyRuntime}.

Lemma related_results {X} (R : X -> X -> Prop) (g : X -> X) (a b : result X) :
  (forall x y, R x y -> y = g x) ->
  match a, b with
  | inr x, inr y => R x y
  | inl e1, inl e2 => e1 = e2
  | _, _ => False
  end ->
  b = result_map g a.
Proof.
  intros HR. destruct a, b; simpl; intros H; try contradiction.
  - congruence.
  - f_equal. apply HR. exact H.
Qed.

Lemma build_is_coerced_get (st : store) (db_path : string)
    (origin destination date : string) (hubs : list string) (m : Z) :
  connect st db_path = connect st default_db ->
  build_synthetic_routes st db_path m origin destination date hubs
  = result_map (map coerce_totals)
      (get_synthetic_routes st origin destination date hubs m).
Proof.
  intros Hdb.
  apply (related_results (fun x y => y = map coerce_totals x)); [auto |].
  unfold build_synthetic_routes, get_synthetic_routes. rewrite Hdb.
  apply for_each_related; [| reflexivity].
  intros hub s t _ Hst.
  apply for_each_related; [| exact Hst].
  intros f1 s1 t1 _ Hst1.
  apply for_each_related; [| exact Hst1].
  intros f2 s2 t2 _ Hst2.
  destruct (fromisoformat (Leg.arrival_time f1)) as [e | arr1]; simpl; [reflexivity |].
  destruct (fromisoformat (Leg.departure_time f2)) as [e | dep2]; simpl; [reflexivity |].
  destruct (dep2 <=? arr1 + timedelta_minutes m); simpl; [exact Hst2 |].
  rewrite Hst2, map_app. reflexivity.
Qed.

Lemma select_legs_typed (tbl : table) (origin destination date : string) (f : Leg.t) :
  typed_table tbl ->
  In f (select_legs tbl origin destination date) ->
  is_float (Leg.price f) /\ is_int (Leg.miles f).
Proof.
  unfold typed_table, select_legs. intros Htyped Hin.
  apply in_map_iff in Hin as (row & <- & Hrow).
  apply filter_In in Hrow as [Hrow _].
  rewrite Forall_forall in Htyped. exact (Htyped row Hrow).
Qed.

(** C10. When [db_path] names the table that the module-level functions
    read, [build_synthetic_routes] returns what [get_synthetic_routes]
    returns, tuple by tuple in the same order and with the same exception
    if one is raised, except that its totals are computed from the prices
    as floats and the miles as ints; on a table that stores prices as
    floats and miles as ints the two results are equal. *)
Theorem synthesizers_equivalent (st : store) (db_path : string)
    (origin destination date : string) (hubs : list string) (m : Z) :
  connect st db_path = connect st default_db ->
  build_synthetic_routes st db_path m origin destination date hubs
  = result_map (map coerce_totals)
      (get_synthetic_routes st origin destination date hubs m) /\
  (typed_table (connect st default_db) ->
   build_synthetic_routes st db_path m origin destination date hubs
   = get_synthetic_routes st origin destination date hubs m).
Proof.
  intros Hdb. split; [apply build_is_coerced_get; exact Hdb |].
  intros Htyped. rewrite (build_is_coerced_get _ _ _ _ _ _ _ Hdb).
  destruct (get_synthetic_routes st origin destination date hubs m)
    as [e | routes] eqn:Hget; simpl; [reflexivity |].
  f_equal. apply get_synthetic_routes_totals in Hget.
  induction Hget as [| s routes [(Hp & Hm & Ht) [H1 H2]] _ IH]; simpl; [reflexivity |].
  rewrite IH. f_equal.
  apply (select_legs_typed _ _ _ _ _ Htyped) in H1 as [Hp1 Hm1].
  apply (select_legs_typed _ _ _ _ _ Htyped) in H2 as [Hp2 Hm2].
  unfold coerce_totals.
  rewrite (py_float_of_float _ Hp1), (py_float_of_float _ Hp2),
          (py_int_of_int _ Hm1), (py_int_of_int _ Hm2), <- Hp, <- Hm.
  destruct s; reflexivity.
Qed.

End TwoSynthesizers.

Lemma synthesizers_equivalent_witness :
  connect Sample.st default_db = connect Sample.st default_db /\
  typed_table (connect Sample.st default_db) /\
  build_synthetic_routes Sample.st default_db 45 "LAX" "JFK" "2025-08-15" ["ORD"%string]
  = inr [Sample.connection].
Proof.
  assert (Htyped : typed_table (connect Sample.st default_db)).
  { repeat constructor; eexists; reflexivity. }
  split; [reflexivity |]. split; [exact Htyped |].
  rewrite (proj2 (synthesizers_equivalent Sample.st default_db "LAX" "JFK" "2025-08-15"
                    ["ORD"%string] 45 eq_refl) Htyped).
  vm_compute; reflexivity.
Defined.

(** Prices stored as ints: the two results differ in the type of the
    total price only. *)
Example int_prices_are_coerced :
  let st : store := fun _ =>
    [Flight.mk "UA" "200" "LAX" "ORD" "2025-08-15"
               "2025-08-15T08:00" "2025-08-15T14:00" (PyInt 120) (PyInt 10000);
     Flight.mk "DL" "300" "ORD" "JFK" "2025-08-15"
               "2025-08-15T15:00" "2025-08-15T18:00" (PyInt 150) (PyInt 12000)] in
  option_map (map Synth.total_price)
    (match get_synthetic_routes st "LAX" "JFK" "2025-08-15" ["ORD"%string] 45 with
     | inr l => Some l | inl _ => None end) = Some [PyInt 270] /\
  option_map (map Synth.total_price)
    (match build_synthetic_routes st default_db 45 "LAX" "JFK" "2025-08-15"
             ["ORD"%string] with
     | inr l => Some l | inl _ => None end) = Some [PyFloat 270].
Proof. split; vm_compute; reflexivity. Qed.

(** ** Single-date best pick *)

(** A loop that scores each element and appends one entry for it. *)
Lemma for_each_collect {A B V} (g : A -> result V) (h : A -> V -> B)
    (xs : list A) (acc acc' : list B) :
  for_each xs (fun x acc => v <- g x ;; ret (acc ++ [h x v])) acc = inr acc' ->
  exists new, acc' = acc ++ new /\
    Forall2 (fun x b => exists v, g x = inr v /\ b = h x v) xs new.
Proof.
  revert acc acc'. induction xs as [| x xs IH]; simpl; intros acc acc' H.
  - inversion H; subst. exists []. rewrite app_nil_r. split; constructor.
  - apply bind_inr in H as (acc1 & H1 & H2).
    apply bind_inr in H1 as (v & Hv & H1). inversion H1; subst; clear H1.
    apply IH in H2 as (new & -> & Hnew).
    exists (h x v :: new). rewrite <- app_assoc. split; [reflexivity |].
    constructor; [eauto | exact Hnew].
Qed.

Section BestPick.
Context {RT : PyRuntime}.

Lemma gather_options_all (origin destination : string)
    (directs : list Leg.t) (synthetic : list Synth.t) (all_options : list Opt.t) :
  gather_options origin destination directs synthetic = inr all_options ->
  exists ds ss, all_options = ds ++ ss /\
    Forall2 (direct_option origin destination) directs ds /\
    Forall2 (synthetic_option origin destination) synthetic ss.
Proof.
  unfold gather_options. intros H.
  apply bind_inr in H as (ds & Hd & Hs).
  apply (for_each_collect
           (fun flight => calculate_value_per_mile (Leg.price flight)
                            (estimate_taxes_and_fees origin destination)
                            (Leg.miles flight))
           (fun flight value =>
              Opt.mk "Direct" [(origin, destination)] [flight] (Leg.price flight)
                     (Leg.miles flight)
                     (estimate_taxes_and_fees origin destination) value))
    in Hd as (ds' & -> & Hd).
  apply (for_each_collect
           (fun s => calculate_value_per_mile (Synth.total_price s) (Synth.taxes s)
                       (Synth.total_miles s))
           (fun s value =>
              Opt.mk "Synthetic" [(origin, Synth.hub s); (Synth.hub s, destination)]
                     [Synth.flight1 s; Synth.flight2 s]
                     (Synth.total_price s) (Synth.total_miles s) (Synth.taxes s) value))
    in Hs as (ss & -> & Hs).
  exists ds', ss. simpl. auto.
Qed.

Lemma py_ltb_false (a b : pynum) : py_ltb a b = false -> (num_val b <= num_val a)%Q.
Proof.
  unfold py_ltb. intros H. apply negb_false_iff in H.
  apply Qle_bool_iff in H. exact H.
Qed.

Lemma py_ltb_true (a b : pynum) : py_ltb a b = true -> (num_val a < num_val b)%Q.
Proof.
  unfold py_ltb. intros H. apply negb_true_iff in H.
  apply Qnot_le_lt. intros Hle. apply Qle_bool_iff in Hle. congruence.
Qed.

(** [max] returns an element of the list whose key no other exceeds. *)
Lemma py_max_from_greatest {A} (key : A -> pynum) (xs : list A) (best : A) :
  let r := py_max_from key best xs in
  In r (best :: xs) /\
  Forall (fun x => (num_val (key x) <= num_val (key r))%Q) (best :: xs).
Proof.
  revert best. induction xs as [| x xs IH]; intros best; simpl.
  - split; [auto | constructor; [apply Qle_refl | constructor]].
  - specialize (IH (if py_ltb (key best) (key x) then x else best)).
    simpl in IH. destruct IH as [Hin Hall].
    inversion Hall as [| ? ? Hhd Htl]; subst.
    destruct (py_ltb (key best) (key x)) eqn:Hlt.
    + apply py_ltb_true in Hlt. split.
      * destruct Hin as [<- | Hin]; auto.
      * constructor; [lra |]. constructor; assumption.
    + apply py_ltb_false in Hlt. split.
      * destruct Hin as [<- | Hin]; auto.
      * constructor; [exact Hhd |]. constructor; [lra | assumption].
Qed.

(** C7. [recommend_best_route] gathers one option for each direct flight
    and one for each synthetic route, each with its score, and returns an
    option of that list whose value per mile no other option exceeds.
    When the list is empty (no direct flight and no synthetic route) it
    returns, without raising, the message string, a result of a form that
    no option has. *)
Theorem recommend_best_route_maximal
    (st : store) (origin destination date : string) (hubs : list string) (m : Z)
    (synthetic : list Synth.t) (all_options : list Opt.t) :
  get_synthetic_routes st origin destination date hubs m = inr synthetic ->
  gather_options origin destination
    (get_direct_flights st origin destination date) synthetic = inr all_options ->
  (exists ds ss, all_options = ds ++ ss /\
     Forall2 (direct_option origin destination)
             (get_direct_flights st origin destination date) ds /\
     Forall2 (synthetic_option origin destination) synthetic ss) /\
  (all_options = [] ->
   recommend_best_route st origin destination date hubs m
   = inr (Message no_flights_message)) /\
  (all_options <> [] ->
   exists best,
     recommend_best_route st origin destination date hubs m = inr (Best best) /\
     In best all_options /\
     Forall (fun o => (num_val (Opt.value_per_mile o)
                       <= num_val (Opt.value_per_mile best))%Q) all_options) /\
  (forall o, Message no_flights_message <> Best o).
Proof.
  intros Hsyn Hall. split; [apply gather_options_all; exact Hall |].
  unfold recommend_best_route. rewrite Hsyn. simpl. rewrite Hall. simpl.
  split; [intros ->; reflexivity |]. split; [| discriminate].
  intros Hne. destruct all_options as [| o rest]; [contradiction |].
  exists (py_max_from Opt.value_per_mile o rest).
  split; [reflexivity |]. apply py_max_from_greatest.
Qed.

End BestPick.

Lemma recommend_best_route_maximal_witness :
  get_synthetic_routes Sample.st "LAX" "JFK" "2025-08-15" ["ORD"%string] 45
    = inr [Sample.connection] /\
  gather_options "LAX" "JFK"
    (get_direct_flights Sample.st "LAX" "JFK" "2025-08-15") [Sample.connection]
    = inr [Sample.direct_option; Sample.connection_option] /\
  exists best,
    recommend_best_route Sample.st "LAX" "JFK" "2025-08-15" ["ORD"%string] 45
      = inr (Best best) /\
    In best [Sample.direct_option; Sample.connection_option].
Proof.
  assert (H1 : get_synthetic_routes Sample.st "LAX" "JFK" "2025-08-15" ["ORD"%string] 45
               = inr [Sample.connection]) by (vm_compute; reflexivity).
  assert (H2 : gather_options "LAX" "JFK"
                 (get_direct_flights Sample.st "LAX" "JFK" "2025-08-15")
                 [Sample.connection]
               = inr [Sample.direct_option; Sample.connection_option])
    by (vm_compute; reflexivity).
  split; [exact H1 |]. split; [exact H2 |].
  destruct (recommend_best_route_maximal Sample.st "LAX" "JFK" "2025-08-15"
              ["ORD"%string] 45 _ _ H1 H2) as (_ & _ & Hbest & _).
  destruct Hbest as (best & Hrun & Hin & _); [discriminate |].
  exists best. split; assumption.
Defined.

(** On the sample the direct flight wins with 1.16 cents against 1.13;
    with a minimum layover of 90 minutes the connection is not a candidate
    and the direct flight is the result; on a day without flights the
    result is the message. *)
Example sample_best_layover_45 :
  recommend_best_route Sample.st "LAX" "JFK" "2025-08-15" ["ORD"%string] 45
  = inr (Best Sample.direct_option).
Proof. vm_compute. reflexivity. Qed.

Example sample_best_layover_90 :
  recommend_best_route Sample.st "LAX" "JFK" "2025-08-15" ["ORD"%string] 90
  = inr (Best Sample.direct_option).
Proof. vm_compute. reflexivity. Qed.

Example sample_no_flights :
  recommend_best_route Sample.st "LAX" "JFK" "2025-08-16" ["ORD"%string] 45
  = inr (Message "No flights available for that day.").
Proof. vm_compute. reflexivity. Qed.

(** ** Range mode: exceptions *)

Section RangeErrors.
Context {RT : PyRuntime}.

Lemma calculate_zero (p t m : pynum) :
  (num_val m == 0)%Q -> calculate_value_per_mile p t m = inl zero_miles_error.
Proof.
  intros Hm. unfold calculate_value_per_mile.
  apply py_eqb_zero in Hm. rewrite Hm. reflexivity.
Qed.

Lemma calculate_raises_only (p t m : pynum) (e : exn) :
  calculate_value_per_mile p t m = inl e -> e = zero_miles_error.
Proof.
  unfold calculate_value_per_mile, raise, ret.
  destruct (py_eqb m (PyInt 0)); congruence.
Qed.

Lemma fromisoformat_raises_only (s : string) (e : exn) :
  fromisoformat s = inl e -> e = isoformat_error s.
Proof.
  unfold fromisoformat, raise, ret.
  destruct (datetime_fromisoformat s); congruence.
Qed.

Lemma build_synthetic_routes_raises_only (st : store) (db_path : string) (m : Z)
    (origin destination date : string) (hubs : list string) (e : exn) :
  build_synthetic_routes st db_path m origin destination date hubs = inl e ->
  data_error e.
Proof.
  unfold build_synthetic_routes.
  apply for_each_raises_only. intros hub s e1 _.
  apply for_each_raises_only. intros f1 s1 e2 _.
  apply for_each_raises_only. intros f2 s2 e3 _ H.
  right.
  apply bind_inl in H as [H | (arr1 & _ & H)];
    [eexists; apply fromisoformat_raises_only; exact H |].
  apply bind_inl in H as [H | (dep2 & _ & H)];
    [eexists; apply fromisoformat_raises_only; exact H |].
  unfold ret in H.
  destruct (dep2 <=? arr1 + timedelta_minutes m); discriminate.
Qed.

Lemma rows_of_day_raises_only (st : store) (db_path origin destination : string)
    (include_synthetic : bool) (m : Z) (day : Z) (rows : list Row.t) (e : exn) :
  rows_of_day st db_path origin destination include_synthetic m day rows = inl e ->
  data_error e.
Proof.
  unfold rows_of_day. intros H.
  apply bind_inl in H as [H | (rows1 & _ & H)].
  - revert H. apply for_each_raises_only. intros f s e1 _ H.
    apply bind_inl in H as [H | (v & _ & H)]; [| discriminate].
    left. apply calculate_raises_only in H. exact H.
  - destruct include_synthetic; [| discriminate].
    apply bind_inl in H as [H | (synthetic & _ & H)];
      [apply build_synthetic_routes_raises_only in H; exact H |].
    revert H. apply for_each_raises_only. intros s0 s e1 _ H.
    apply bind_inl in H as [H | (v & _ & H)]; [| discriminate].
    left. apply calculate_raises_only in H. exact H.
Qed.

Lemma fromisoformat_date_raises_only (s : string) (e : exn) :
  fromisoformat_date s = inl e -> data_error e.
Proof.
  unfold fromisoformat_date. intros H.
  apply bind_inl in H as [H | (t & _ & H)]; [| discriminate].
  right. eexists. apply fromisoformat_raises_only. exact H.
Qed.

Lemma accumulate_rows_raises_only (st : store) (db_path origin destination : string)
    (start_date end_date : string) (include_synthetic : bool) (m : Z) (e : exn) :
  accumulate_rows st db_path origin destination start_date end_date
    include_synthetic m = inl e ->
  data_error e.
Proof.
  unfold accumulate_rows. intros H.
  apply bind_inl in H as [H | (s & _ & H)];
    [apply fromisoformat_date_raises_only in H; exact H |].
  apply bind_inl in H as [H | (e0 & _ & H)];
    [apply fromisoformat_date_raises_only in H; exact H |].
  destruct (e0 <? s); revert H; apply for_each_raises_only;
    intros day rows e1 _; apply rows_of_day_raises_only.
Qed.

Lemma in_days_from_to (start end_ day : Z) :
  In day (days_from_to start end_) <-> start <= day <= end_.
Proof.
  unfold days_from_to. rewrite in_map_iff. split.
  - intros (i & <- & Hi). apply in_seq in Hi. lia.
  - intros Hd. exists (Z.to_nat (day - start)). split; [lia |].
    apply in_seq. lia.
Qed.

(** A day with a zero-mile candidate makes the body of the loop over the
    days raise, whatever rows were gathered before. *)
Lemma rows_of_day_zero_miles (st : store) (db_path origin destination : string)
    (include_synthetic : bool) (m : Z) (day : Z) :
  zero_mile_candidate st db_path origin destination include_synthetic m day ->
  forall rows, exists e,
    rows_of_day st db_path origin destination include_synthetic m day rows = inl e.
Proof.
  intros [(f & Hf & Hz) | (-> & routes & s & Hbuild & Hs & Hz)] rows;
    unfold rows_of_day.
  - match goal with
    | |- exists e, bind (for_each ?xs ?body ?s0) ?k = inl e =>
        destruct (for_each_raises body xs f Hf) with (s := s0) as (e & He)
    end.
    + intros s. eexists. unfold py_int. rewrite Hz.
      rewrite calculate_zero by reflexivity. reflexivity.
    + exists e. rewrite He. reflexivity.
  - match goal with
    | |- exists e, bind ?loop ?k = inl e => destruct loop as [e | rows1]
    end; simpl; [eauto |].
    rewrite Hbuild. simpl.
    apply (for_each_raises _ routes s Hs).
    intros s0. eexists. unfold py_int. rewrite Hz.
    rewrite calculate_zero by reflexivity. reflexivity.
Qed.

(** C3. [calculate_value_per_mile(p, t, 0)] raises the zero-miles error
    for all [p] and [t].  Range mode does not catch it: when some day of
    the range has a candidate with zero mileage cost, [recommend_routes]
    returns no table but ends with an exception, the zero-miles error or
    the error of a timestamp that failed to parse before the candidate was
    scored. *)
Theorem zero_miles_aborts_range
    (st : store) (origin destination start_date end_date : string)
    (include_synthetic : bool) (min_layover_minutes : Z) (objective : string)
    (min_vpm_cents max_price : option pynum)
    (airline_allowlist : option (list string)) (max_results : Z) (db_path : string)
    (start end_ day : Z) :
  (forall p t, calculate_value_per_mile p t (PyInt 0) = inl zero_miles_error) /\
  (fromisoformat_date start_date = inr start ->
   fromisoformat_date end_date = inr end_ ->
   Z.min start end_ <= day <= Z.max start end_ ->
   zero_mile_candidate st db_path origin destination include_synthetic
     min_layover_minutes day ->
   exists e,
     recommend_routes st origin destination start_date end_date include_synthetic
       min_layover_minutes objective min_vpm_cents max_price airline_allowlist
       max_results db_path = inl e /\
     data_error e).
Proof.
  split; [intros p t; apply calculate_zero; reflexivity |].
  intros Hs He Hday Hcand.
  assert (Hacc : exists e,
            accumulate_rows st db_path origin destination start_date end_date
              include_synthetic min_layover_minutes = inl e).
  { unfold accumulate_rows. rewrite Hs, He. simpl.
    destruct (end_ <? start) eqn:Hswap;
      apply (for_each_raises _ _ day);
      try (apply rows_of_day_zero_miles; exact Hcand);
      apply in_days_from_to; lia. }
  destruct Hacc as (e & Hacc). exists e. split.
  - unfold recommend_routes. rewrite Hacc. reflexivity.
  - apply accumulate_rows_raises_only in Hacc. exact Hacc.
Qed.

End RangeErrors.

Lemma zero_miles_aborts_range_witness :
  exists e,
    recommend_routes Sample.st_zero "LAX" "JFK" "2025-08-15" "2025-08-15" true 45
      "vpm" None None None 100 default_db = inl e /\
    data_error e.
Proof.
  apply (proj2 (zero_miles_aborts_range Sample.st_zero "LAX" "JFK"
                  "2025-08-15" "2025-08-15" true 45 "vpm" None None None 100
                  default_db 20315 20315 20315)).
  - vm_compute; reflexivity.
  - vm_compute; reflexivity.
  - lia.
  - left. exists (leg_of_flight Sample.zero_mile_flight). split.
    + vm_compute. right; left; reflexivity.
    + reflexivity.
Defined.

(** The flight scored before the zero-mile one is not returned: the call
    ends with the zero-miles error. *)
Example sample_zero_miles_error :
  recommend_routes Sample.st_zero "LAX" "JFK" "2025-08-15" "2025-08-15" true 45
    "vpm" None None None 100 default_db = inl zero_miles_error.
Proof. vm_compute. reflexivity. Qed.

(** ** Text: escaped patterns and matching *)

Lemma append_nil_r (s : string) : (s ++ "")%string = s.
Proof. induction s as [| c s IH]; simpl; [reflexivity | rewrite IH; reflexivity]. Qed.

(** A character that [re.escape] escapes is no letter or digit, so the
    backslash before it makes a literal. *)
Lemma re_special_not_alnum (c : ascii) : re_special c = true -> is_alnum c = false.
Proof.
  destruct c as [[] [] [] [] [] [] [] []]; vm_compute; congruence.
Qed.

(** A character that [re.escape] leaves alone has no meaning of its own
    in a pattern. *)
Lemma not_special_literal (c : ascii) :
  re_special c = false ->
  Ascii.eqb c backslash = false /\ Ascii.eqb c bar = false /\ re_meta c = false.
Proof.
  destruct c as [[] [] [] [] [] [] [] []]; vm_compute; intuition congruence.
Qed.

Lemma re_compile_nonempty (p : string) (alts : list string) :
  re_compile p = Some alts -> alts <> [].
Proof.
  assert (Hc : forall c l, cons_head c l <> []) by (intros c [| a l]; discriminate).
  revert alts. destruct p as [| c p]; intros alts.
  - simpl. intros H; inversion H; discriminate.
  - simpl.
    destruct (Ascii.eqb c backslash).
    + destruct p as [| d p']; [discriminate |].
      destruct (is_alnum d); [discriminate |].
      destruct (re_compile p'); simpl; intros H; inversion H; apply Hc.
    + destruct (Ascii.eqb c bar).
      * destruct (re_compile p); simpl; intros H; inversion H; discriminate.
      * destruct (re_meta c); [discriminate |].
        destruct (re_compile p); simpl; intros H; inversion H; apply Hc.
Qed.

(** An escaped text in front of a pattern compiles to that text in front
    of the pattern's first alternative. *)
Lemma re_compile_escape (p rest : string) (alts : list string) :
  re_compile rest = Some alts ->
  re_compile (re_escape p ++ rest) = Some (prepend p alts).
Proof.
  intros Hrest. pose proof (re_compile_nonempty _ _ Hrest) as Hne.
  induction p as [| c p IH]; simpl.
  - rewrite Hrest. destruct alts; [contradiction | reflexivity].
  - destruct (re_special c) eqn:Hsp.
    + simpl. change (Ascii.eqb backslash backslash) with true. simpl.
      rewrite (re_special_not_alnum c Hsp), IH.
      destruct alts; [contradiction | reflexivity].
    + destruct (not_special_literal c Hsp) as (H1 & H2 & H3).
      simpl. rewrite H1, H2, H3, IH.
      destruct alts; [contradiction | reflexivity].
Qed.

(** The pattern built from a non-empty list of texts compiles to the
    alternation of exactly those texts: every character of an entry
    stands for itself. *)
Lemma re_compile_join (ps : list string) :
  ps <> [] -> re_compile (join_bar (map re_escape ps)) = Some ps.
Proof.
  induction ps as [| p ps IH]; [contradiction | intros _].
  destruct ps as [| q ps].
  - simpl. rewrite <- (append_nil_r (re_escape p)).
    rewrite (re_compile_escape p "" [EmptyString] eq_refl).
    simpl. rewrite append_nil_r. reflexivity.
  - change (join_bar (map re_escape (p :: q :: ps)))
      with (re_escape p ++ String bar (join_bar (map re_escape (q :: ps))))%string.
    rewrite (re_compile_escape p _ (EmptyString :: q :: ps)).
    + simpl. rewrite append_nil_r. reflexivity.
    + simpl. change (Ascii.eqb bar backslash) with false.
      change (Ascii.eqb bar bar) with true. simpl.
      simpl in IH. rewrite IH by discriminate. reflexivity.
Qed.

Lemma prefix_ci_spec (p s : string) :
  prefix_ci p s = true <-> exists post, lower_str s = (lower_str p ++ post)%string.
Proof.
  revert s. induction p as [| a p IH]; intros s; simpl.
  - split; [intros _; exists (lower_str s); reflexivity | reflexivity].
  - destruct s as [| b s]; simpl.
    + split; [discriminate | intros (post & H); discriminate].
    + rewrite andb_true_iff, Ascii.eqb_eq, IH. split.
      * intros (-> & post & ->). exists post. reflexivity.
      * intros (post & H). inversion H. split; [reflexivity | eauto].
Qed.

(** The search finds a match exactly when the text occurs as a literal
    substring, letter case aside. *)
Lemma contains_ci_spec (p s : string) :
  contains_ci p s = true <-> substring_ci p s.
Proof.
  unfold substring_ci. induction s as [| b s IH].
  - simpl. rewrite orb_false_r, prefix_ci_spec. split.
    + intros (post & H). exists EmptyString, post. exact H.
    + intros (pre & post & H). destruct pre; [eauto | discriminate].
  - cbn [contains_ci]. rewrite orb_true_iff, IH, prefix_ci_spec. split.
    + intros [(post & H) | (pre & post & H)].
      * exists EmptyString, post. exact H.
      * exists (String (lower b) pre), post. simpl. rewrite H. reflexivity.
    + intros (pre & post & H). destruct pre as [| c pre].
      * left. exists post. exact H.
      * right. simpl in H. inversion H. eauto.
Qed.

Lemma strip_nonempty (s : string) : strip s <> EmptyString -> s <> EmptyString.
Proof. intros H ->. apply H. reflexivity. Qed.

(** The test of the list comprehension, [s and str(s).strip()]. *)
Lemma nonblank_test (s : string) :
  negb (String.eqb s "") && negb (String.eqb (strip s) "") = true <-> nonblank s.
Proof.
  unfold nonblank. rewrite andb_true_iff, !negb_true_iff, !String.eqb_neq.
  split; [intros [_ H]; exact H | intros H; split; [apply strip_nonempty |]; exact H].
Qed.

Lemma allowlist_pats_escape (l : list string) :
  allowlist_pats l
  = map re_escape
      (map strip (filter (fun s => negb (String.eqb s "") && negb (String.eqb (strip s) "")) l)).
Proof. unfold allowlist_pats. rewrite map_map. reflexivity. Qed.

(** ** Range mode: the filters *)

Lemma filter_twice {A} (f g : A -> bool) (l : list A) :
  filter g (filter f l) = filter (fun x => f x && g x) l.
Proof.
  induction l as [| x l IH]; simpl; [reflexivity |].
  destruct (f x); simpl; [destruct (g x) |]; rewrite IH; reflexivity.
Qed.

Section Filters.
Context {RT : PyRuntime}.

Lemma py_leb_spec (a b : pynum) : py_leb a b = true <-> (num_val a <= num_val b)%Q.
Proof. unfold py_leb. apply Qle_bool_iff. Qed.

(** The allowlist test of the code on one airline label. *)
Lemma allowlist_test_spec (l : list string) (airline : string) :
  match map strip (filter (fun s => negb (String.eqb s "")
                                    && negb (String.eqb (strip s) "")) l) with
  | [] => true
  | alts => re_search_ci alts airline
  end = true <->
  (forall entry, In entry l -> ~ nonblank entry) \/
  (exists entry, In entry l /\ nonblank entry /\ substring_ci (strip entry) airline).
Proof.
  set (test := fun s => negb (String.eqb s "") && negb (String.eqb (strip s) "")).
  assert (Hsearch : re_search_ci (map strip (filter test l)) airline = true <->
            exists entry, In entry l /\ nonblank entry /\
                          substring_ci (strip entry) airline).
  { unfold re_search_ci. rewrite existsb_exists. split.
    - intros (alt & Halt & Hc). apply in_map_iff in Halt as (entry & <- & Hentry).
      apply filter_In in Hentry as [Hin Htest].
      exists entry. split; [exact Hin |].
      split; [apply nonblank_test; exact Htest | apply contains_ci_spec; exact Hc].
    - intros (entry & Hin & Hnb & Hsub). exists (strip entry). split.
      + apply in_map. apply filter_In. split; [exact Hin | apply nonblank_test; exact Hnb].
      + apply contains_ci_spec. exact Hsub. }
  destruct (filter test l) as [| x kept] eqn:Hkept.
  - simpl. split; [intros _; left | reflexivity].
    intros entry Hin Hnb. apply nonblank_test in Hnb.
    assert (Hf : In entry (filter test l)) by (apply filter_In; auto).
    rewrite Hkept in Hf. exact Hf.
  - change (match map strip (x :: kept) with
            | [] => true
            | _ :: _ => re_search_ci (map strip (x :: kept)) airline
            end = true)
      with (re_search_ci (map strip (x :: kept)) airline = true).
    rewrite Hsearch. split; [auto |].
    intros [Hnone | Hsome]; [| exact Hsome].
    exfalso. assert (Hx : In x (filter test l)) by (rewrite Hkept; left; reflexivity).
    apply filter_In in Hx as [Hin Htest].
    apply (Hnone x Hin). apply nonblank_test. exact Htest.
Qed.

Lemma keep_row_spec (min_vpm_cents max_price : option pynum)
    (airline_allowlist : option (list string)) (r : Row.t) :
  keep_row min_vpm_cents max_price airline_allowlist r = true <->
  survives min_vpm_cents max_price airline_allowlist r.
Proof.
  unfold keep_row, survives. rewrite !andb_true_iff.
  assert (H1 : match min_vpm_cents with
               | Some m => py_leb (py_float m) (Row.value_per_mile_cents r)
               | None => true
               end = true <-> passes_min_vpm min_vpm_cents r).
  { destruct min_vpm_cents; simpl; [apply py_leb_spec | tauto]. }
  assert (H2 : match max_price with
               | Some m => py_leb (Row.price r) (py_float m)
               | None => true
               end = true <-> passes_max_price max_price r).
  { destruct max_price; simpl; [apply py_leb_spec | tauto]. }
  rewrite H1, H2.
  destruct airline_allowlist as [l |]; simpl passes_allowlist.
  - rewrite allowlist_test_spec. tauto.
  - tauto.
Qed.

Lemma df_select_all (df : DataFrame) : df_select (fun _ => true) df = df.
Proof.
  destruct df as [c l]. unfold df_select. simpl. f_equal.
  induction l as [| a l IH]; simpl; [reflexivity | rewrite IH; reflexivity].
Qed.

Lemma df_select_twice (f g : Row.t -> bool) (df : DataFrame) :
  df_select g (df_select f df) = df_select (fun r => f r && g r) df.
Proof. unfold df_select. simpl. rewrite filter_twice. reflexivity. Qed.

Lemma df_select_ext (f g : Row.t -> bool) (df : DataFrame) :
  (forall r, f r = g r) -> df_select f df = df_select g df.
Proof. intros H. unfold df_select. f_equal. apply filter_ext. exact H. Qed.

(** The allowlist stage alone. *)
Lemma allowlist_stage (airline_allowlist : option (list string)) (df : DataFrame) :
  match airline_allowlist with
  | Some ((_ :: _) as allowlist) =>
      match allowlist_pats allowlist with
      | [] => ret df
      | pats => airline_contains (join_bar pats) df
      end
  | _ => ret df
  end
  = inr (df_select (keep_row None None airline_allowlist) df).
Proof.
  unfold keep_row, ret.
  destruct airline_allowlist as [[| x l] |]; cbn [andb].
  - simpl. rewrite (df_select_all df). reflexivity.
  - rewrite allowlist_pats_escape.
    destruct (map strip
                (filter (fun s => negb (String.eqb s "")
                                  && negb (String.eqb (strip s) "")) (x :: l)))
      as [| alt alts].
    + simpl. rewrite (df_select_all df). reflexivity.
    + cbn [map]. change (re_escape alt :: map re_escape alts)
        with (map re_escape (alt :: alts)).
      unfold airline_contains.
      rewrite re_compile_join by discriminate. reflexivity.
  - rewrite (df_select_all df). reflexivity.
Qed.

(** [apply_filters] never raises and keeps the rows that pass the three
    tests, in their order. *)
Lemma apply_filters_keep (min_vpm_cents max_price : option pynum)
    (airline_allowlist : option (list string)) (df : DataFrame) :
  apply_filters min_vpm_cents max_price airline_allowlist df
  = inr (df_select (keep_row min_vpm_cents max_price airline_allowlist) df).
Proof.
  unfold apply_filters. cbv zeta. rewrite allowlist_stage.
  f_equal.
  destruct min_vpm_cents as [a |], max_price as [b |];
    rewrite ?df_select_twice; apply df_select_ext; intros r;
    unfold keep_row; cbn [andb]; rewrite ?andb_true_r, ?andb_assoc; reflexivity.
Qed.

End Filters.

(** ** Range mode: the pipeline after the loop *)

Section Pipeline.
Context {RT : PyRuntime}.

Lemma slice_to_nil {A} (n : Z) : slice_to n (@nil A) = [].
Proof. unfold slice_to. destruct (0 <=? n); apply firstn_nil. Qed.

(** [recommend_routes] is the loop over the days followed by filter,
    sort and truncation; on an empty list of rows the three steps, which
    the code skips, would change nothing. *)
Lemma recommend_routes_pipeline
    (st : store) (origin destination start_date end_date : string)
    (include_synthetic : bool) (min_layover_minutes : Z) (objective : string)
    (min_vpm_cents max_price : option pynum)
    (airline_allowlist : option (list string)) (max_results : Z) (db_path : string) :
  recommend_routes st origin destination start_date end_date include_synthetic
    min_layover_minutes objective min_vpm_cents max_price airline_allowlist
    max_results db_path
  = result_map
      (fun rows =>
         truncate max_results
           (objective_sort objective
              (df_select (keep_row min_vpm_cents max_price airline_allowlist)
                         (mkDataFrame cols rows))))
      (accumulate_rows st db_path origin destination start_date end_date
         include_synthetic min_layover_minutes).
Proof.
  unfold recommend_routes.
  destruct (accumulate_rows st db_path origin destination start_date end_date
              include_synthetic min_layover_minutes) as [e | rows]; simpl;
    [reflexivity |].
  destruct rows as [| r rows].
  - simpl. unfold ret, reset_index, truncate, objective_sort, head, sort_values.
    destruct (String.eqb objective "min_fees" && _), (negb (max_results =? 0));
      simpl; rewrite ?slice_to_nil; reflexivity.
  - change (df_empty (mkDataFrame cols (r :: rows))) with false. cbn [negb].
    rewrite apply_filters_keep. reflexivity.
Qed.

Lemma columns_truncate (n : Z) (df : DataFrame) : columns (truncate n df) = columns df.
Proof. unfold truncate. destruct (negb (n =? 0)); reflexivity. Qed.

Lemma columns_objective_sort (objective : string) (df : DataFrame) :
  columns (objective_sort objective df) = columns df.
Proof.
  unfold objective_sort.
  destruct (String.eqb objective "min_fees" && str_in "taxes" (columns df)); reflexivity.
Qed.

Lemma filter_none {A} (f : A -> bool) (l : list A) :
  (forall x, In x l -> f x = false) -> filter f l = [].
Proof.
  induction l as [| x l IH]; simpl; intros H; [reflexivity |].
  rewrite (H x (or_introl eq_refl)). apply IH. intros y Hy. apply H. right; exact Hy.
Qed.

(** C4. Whatever the inputs, a table that [recommend_routes] returns has
    the eleven columns of [cols].  When the range yields no candidate at
    all, and when no accumulated row passes the filters, the result is
    the table with these columns and no rows. *)
Theorem range_result_has_fixed_columns
    (st : store) (origin destination start_date end_date : string)
    (include_synthetic : bool) (min_layover_minutes : Z) (objective : string)
    (min_vpm_cents max_price : option pynum)
    (airline_allowlist : option (list string)) (max_results : Z) (db_path : string) :
  let run :=
    recommend_routes st origin destination start_date end_date include_synthetic
      min_layover_minutes objective min_vpm_cents max_price airline_allowlist
      max_results db_path in
  let accumulated :=
    accumulate_rows st db_path origin destination start_date end_date
      include_synthetic min_layover_minutes in
  (forall df, run = inr df -> columns df = cols) /\
  (accumulated = inr [] -> run = inr (mkDataFrame cols [])) /\
  (forall rows,
     accumulated = inr rows ->
     (forall r, In r rows ->
        keep_row min_vpm_cents max_price airline_allowlist r = false) ->
     run = inr (mkDataFrame cols [])).
Proof.
  intros run accumulated.
  assert (Hnone : forall rows,
            accumulated = inr rows ->
            (forall r, In r rows ->
               keep_row min_vpm_cents max_price airline_allowlist r = false) ->
            run = inr (mkDataFrame cols [])).
  { intros rows Hacc Hdrop. unfold run. rewrite recommend_routes_pipeline.
    fold accumulated. rewrite Hacc. simpl. f_equal.
    unfold df_select. simpl. rewrite (filter_none _ _ Hdrop).
    unfold truncate, objective_sort, head, sort_values.
    destruct (String.eqb objective "min_fees" && _), (negb (max_results =? 0));
      simpl; rewrite ?slice_to_nil; reflexivity. }
  split; [| split; [| exact Hnone]].
  - intros df. unfold run. rewrite recommend_routes_pipeline.
    destruct (accumulate_rows st db_path origin destination start_date end_date
                include_synthetic min_layover_minutes) as [e | rows]; simpl;
      [discriminate |].
    intros H. inversion H; subst; clear H.
    rewrite columns_truncate, columns_objective_sort. reflexivity.
  - intros Hacc. apply (Hnone [] Hacc). intros r [].
Qed.

(** C8, amended. The filters never raise and keep, in their order, the
    rows that pass all three tests: the value per mile is at least the
    minimum (when one is given), the price is at most the maximum (when
    one is given), and the allowlist is absent, or has no entry that is
    not blank, or has an entry that is not blank and that, stripped of
    surrounding white space, occurs in the airline label as a literal
    substring, letter case aside.  The pattern compiled from the entries
    is the alternation of the stripped entries, each character standing
    for itself. *)
Theorem filters_compose_as_conjunction
    (min_vpm_cents max_price : option pynum)
    (airline_allowlist : option (list string)) (df : DataFrame) :
  exists out,
    apply_filters min_vpm_cents max_price airline_allowlist df = inr out /\
    columns out = columns df /\
    records out
    = filter (keep_row min_vpm_cents max_price airline_allowlist) (records df) /\
    (forall r, In r (records out) <->
               In r (records df) /\
               survives min_vpm_cents max_price airline_allowlist r) /\
    (forall entries, entries <> [] ->
       re_compile (join_bar (map re_escape entries)) = Some entries).
Proof.
  exists (df_select (keep_row min_vpm_cents max_price airline_allowlist) df).
  split; [apply apply_filters_keep |].
  split; [reflexivity |]. split; [reflexivity |].
  split; [| apply re_compile_join].
  intros r. simpl. rewrite filter_In, keep_row_spec. reflexivity.
Qed.

End Pipeline.

Lemma range_result_has_fixed_columns_witness :
  accumulate_rows Sample.st default_db "LAX" "JFK" "2025-08-16" "2025-08-17" true 45
    = inr [] /\
  recommend_routes Sample.st "LAX" "JFK" "2025-08-16" "2025-08-17" true 45
    "vpm" None None None 100 default_db = inr (mkDataFrame cols []).
Proof.
  assert (H : accumulate_rows Sample.st default_db "LAX" "JFK"
                "2025-08-16" "2025-08-17" true 45 = inr [])
    by (vm_compute; reflexivity).
  split; [exact H |].
  exact (proj1 (proj2 (range_result_has_fixed_columns Sample.st "LAX" "JFK"
                         "2025-08-16" "2025-08-17" true 45 "vpm" None None None
                         100 default_db)) H).
Defined.

(** The sample in range mode: both candidates, the better score first;
    with a minimum of 5.0 cents per mile, which neither reaches, the table
    with the fixed columns and no rows. *)
Example sample_range :
  recommend_routes Sample.st "LAX" "JFK" "2025-08-15" "2025-08-15" true 45
    "vpm" None None None 100 default_db
  = inr (mkDataFrame cols [Sample.direct_row; Sample.connection_row]).
Proof. vm_compute. reflexivity. Qed.

Example sample_range_min_vpm :
  recommend_routes Sample.st "LAX" "JFK" "2025-08-15" "2025-08-15" true 45
    "vpm" (Some (PyFloat 5)) None None 100 default_db
  = inr (mkDataFrame cols []).
Proof. vm_compute. reflexivity. Qed.

(** C8 as the specification words it fails on an entry with
    white space around it: [" AA"] keeps the row of airline ["AA"],
    though [" AA"] does not occur in ["AA"]. *)
Lemma stated_filters_counterexample :
  exists out,
    apply_filters None None (Some [" AA"%string])
      (mkDataFrame cols [Sample.direct_row]) = inr out /\
    In Sample.direct_row (records out) /\
    ~ stated_survives None None (Some [" AA"%string]) Sample.direct_row.
Proof.
  exists (mkDataFrame cols [Sample.direct_row]).
  split; [vm_compute; reflexivity |]. split; [left; reflexivity |].
  intros (_ & _ & entry & [<- | []] & Hsub).
  apply contains_ci_spec in Hsub. vm_compute in Hsub. discriminate.
Qed.

(** In the other direction, an empty entry beside one that does not
    match: the empty text occurs in every label, and the row is dropped. *)
Example empty_entry_is_ignored :
  apply_filters None None (Some [""; "ZZ"]%string)
    (mkDataFrame cols [Sample.direct_row]) = inr (mkDataFrame cols []) /\
  stated_survives None None (Some [""; "ZZ"]%string) Sample.direct_row.
Proof.
  split; [vm_compute; reflexivity |].
  repeat split. exists ""%string. split; [left; reflexivity |].
  apply contains_ci_spec. reflexivity.
Qed.

(** Entries are matched as text: the entry ["A.+"] does not match
    ["AA"], and the entry ["ua+dl"] matches ["UA+DL"]. *)
Example special_characters_are_literal :
  apply_filters None None (Some ["A.+"%string])
    (mkDataFrame cols [Sample.direct_row; Sample.connection_row])
  = inr (mkDataFrame cols []) /\
  apply_filters None None (Some ["ua+dl"%string])
    (mkDataFrame cols [Sample.direct_row; Sample.connection_row])
  = inr (mkDataFrame cols [Sample.connection_row]).
Proof. split; vm_compute; reflexivity. Qed.

(** ** Range mode: sorting and truncation *)

Section Sorting.
Variable by_ : list sort_key.
Variable R : Row.t -> Row.t -> Prop.
Hypothesis R_leb : forall a b, lex_leb by_ a b = true <-> R a b.
Hypothesis R_total : forall a b, R a b \/ R b a.
Hypothesis R_trans : forall a b c, R a b -> R b c -> R a c.

Lemma insert_row_perm (x : Row.t) (l : list Row.t) :
  Permutation (x :: l) (insert_row by_ x l).
Proof.
  induction l as [| y l IH]; simpl; [apply Permutation_refl |].
  destruct (lex_leb by_ x y); [apply Permutation_refl |].
  eapply perm_trans; [apply perm_swap | apply perm_skip; exact IH].
Qed.

Lemma sort_rows_perm (l : list Row.t) : Permutation l (sort_rows by_ l).
Proof.
  induction l as [| x l IH]; simpl; [constructor |].
  eapply perm_trans; [apply perm_skip; exact IH | apply insert_row_perm].
Qed.

Lemma insert_row_sorted (x : Row.t) (l : list Row.t) :
  StronglySorted R l -> StronglySorted R (insert_row by_ x l).
Proof.
  induction l as [| y l IH]; simpl; intros Hs.
  - repeat constructor.
  - inversion Hs as [| ? ? Hl Hy]; subst.
    destruct (lex_leb by_ x y) eqn:Hxy.
    + apply R_leb in Hxy. constructor; [exact Hs |].
      constructor; [exact Hxy |].
      eapply Forall_impl; [| exact Hy]. intros z Hz. exact (R_trans _ _ _ Hxy Hz).
    + constructor; [apply IH; exact Hl |].
      apply (Permutation_Forall (insert_row_perm x l)).
      constructor; [| exact Hy].
      destruct (R_total x y) as [H | H]; [| exact H].
      apply R_leb in H. congruence.
Qed.

Lemma sort_rows_sorted (l : list Row.t) : StronglySorted R (sort_rows by_ l).
Proof.
  induction l as [| x l IH]; simpl; [constructor | apply insert_row_sorted; exact IH].
Qed.

End Sorting.

Lemma StronglySorted_firstn {A} (R : A -> A -> Prop) (n : nat) (l : list A) :
  StronglySorted R l -> StronglySorted R (firstn n l).
Proof.
  revert l. induction n as [| n IH]; intros l Hs; [constructor |].
  destruct l as [| x l]; [constructor |]. simpl.
  inversion Hs as [| ? ? Hl Hx]; subst. constructor; [apply IH; exact Hl |].
  rewrite Forall_forall in *. intros y Hy. apply Hx.
  rewrite <- (firstn_skipn n l). apply in_or_app. left; exact Hy.
Qed.

Lemma StronglySorted_slice_to {A} (R : A -> A -> Prop) (n : Z) (l : list A) :
  StronglySorted R l -> StronglySorted R (slice_to n l).
Proof.
  intros Hs. unfold slice_to. destruct (0 <=? n); apply StronglySorted_firstn; exact Hs.
Qed.

Lemma min_fees_order_leb (a b : Row.t) :
  lex_leb by_min_fees a b = true <-> min_fees_order a b.
Proof.
  unfold lex_leb, by_min_fees, lex_compare, min_fees_order.
  destruct (Qcompare_spec (num_val (Row.taxes a)) (num_val (Row.taxes b)));
    destruct (Qcompare_spec (num_val (Row.price a)) (num_val (Row.price b)));
    destruct (Qcompare_spec (num_val (Row.value_per_mile_cents a))
                            (num_val (Row.value_per_mile_cents b)));
    simpl; split; intros Hgoal; try reflexivity; try discriminate; lra.
Qed.

Lemma vpm_order_leb (a b : Row.t) :
  lex_leb by_vpm a b = true <-> vpm_order a b.
Proof.
  unfold lex_leb, by_vpm, lex_compare, vpm_order.
  destruct (Qcompare_spec (num_val (Row.value_per_mile_cents a))
                          (num_val (Row.value_per_mile_cents b)));
    destruct (Qcompare_spec (num_val (Row.price a)) (num_val (Row.price b)));
    simpl; split; intros Hgoal; try reflexivity; try discriminate; lra.
Qed.

Lemma min_fees_order_total (a b : Row.t) : min_fees_order a b \/ min_fees_order b a.
Proof. unfold min_fees_order. lra. Qed.

Lemma min_fees_order_trans (a b c : Row.t) :
  min_fees_order a b -> min_fees_order b c -> min_fees_order a c.
Proof. unfold min_fees_order. lra. Qed.

Lemma vpm_order_total (a b : Row.t) : vpm_order a b \/ vpm_order b a.
Proof. unfold vpm_order. lra. Qed.

Lemma vpm_order_trans (a b c : Row.t) :
  vpm_order a b -> vpm_order b c -> vpm_order a c.
Proof. unfold vpm_order. lra. Qed.

(** The sort on the objective orders the rows of a table that has the
    column "taxes" by the order of the objective, and loses none. *)
Lemma objective_sort_sorted (objective : string) (df : DataFrame) :
  str_in "taxes" (columns df) = true ->
  StronglySorted (objective_order objective) (records (objective_sort objective df)) /\
  Permutation (records df) (records (objective_sort objective df)).
Proof.
  intros Htaxes. unfold objective_sort, objective_order. rewrite Htaxes, andb_true_r.
  destruct (String.eqb objective "min_fees"); simpl.
  - split; [| apply sort_rows_perm].
    apply sort_rows_sorted;
      [apply min_fees_order_leb | apply min_fees_order_total | apply min_fees_order_trans].
  - split; [| apply sort_rows_perm].
    apply sort_rows_sorted;
      [apply vpm_order_leb | apply vpm_order_total | apply vpm_order_trans].
Qed.

Section Ranking.
Context {RT : PyRuntime}.

Lemma records_truncate (n : Z) (df : DataFrame) :
  records (truncate n df) = if n =? 0 then records df else slice_to n (records df).
Proof. unfold truncate. destruct (n =? 0); reflexivity. Qed.

(** C9, amended. The rows that pass the filters are sorted by the
    objective, under "min_fees" by (taxes ascending, price ascending,
    value per mile descending) and otherwise by (value per mile
    descending, price ascending), and the result is a leading part of the
    sorted rows: the first [max_results] of them when [max_results] is
    positive, so at most [max_results] rows, and all of them when
    [max_results] is 0, which switches the truncation off. *)
Theorem range_rows_sorted_then_truncated
    (st : store) (origin destination start_date end_date : string)
    (include_synthetic : bool) (min_layover_minutes : Z) (objective : string)
    (min_vpm_cents max_price : option pynum)
    (airline_allowlist : option (list string)) (max_results : Z) (db_path : string)
    (out : DataFrame) :
  recommend_routes st origin destination start_date end_date include_synthetic
    min_layover_minutes objective min_vpm_cents max_price airline_allowlist
    max_results db_path = inr out ->
  exists rows sorted,
    accumulate_rows st db_path origin destination start_date end_date
      include_synthetic min_layover_minutes = inr rows /\
    Permutation (filter (keep_row min_vpm_cents max_price airline_allowlist) rows)
                sorted /\
    StronglySorted (objective_order objective) sorted /\
    StronglySorted (objective_order objective) (records out) /\
    (0 < max_results ->
     records out = firstn (Z.to_nat max_results) sorted /\
     Z.of_nat (List.length (records out)) <= max_results) /\
    (max_results = 0 -> records out = sorted).
Proof.
  rewrite recommend_routes_pipeline.
  destruct (accumulate_rows st db_path origin destination start_date end_date
              include_synthetic min_layover_minutes) as [e | rows]; simpl;
    [discriminate |].
  intros H. inversion H; subst; clear H.
  set (kept := df_select (keep_row min_vpm_cents max_price airline_allowlist)
                 (mkDataFrame cols rows)).
  destruct (objective_sort_sorted objective kept eq_refl) as [Hsorted Hperm].
  exists rows, (records (objective_sort objective kept)).
  split; [reflexivity |]. split; [exact Hperm |]. split; [exact Hsorted |].
  rewrite records_truncate. split; [| split].
  - destruct (max_results =? 0); [exact Hsorted |].
    apply StronglySorted_slice_to. exact Hsorted.
  - intros Hpos.
    destruct (max_results =? 0) eqn:Hz; [apply Z.eqb_eq in Hz; lia |].
    unfold slice_to. destruct (0 <=? max_results) eqn:Hle;
      [| apply Z.leb_gt in Hle; lia].
    split; [reflexivity |].
    pose proof (firstn_le_length (Z.to_nat max_results)
                  (records (objective_sort objective kept))). lia.
  - intros ->. reflexivity.
Qed.

End Ranking.

Lemma range_rows_sorted_then_truncated_witness :
  recommend_routes Sample.st "LAX" "JFK" "2025-08-15" "2025-08-15" true 45
    "vpm" None None None 1 default_db
    = inr (mkDataFrame cols [Sample.direct_row]) /\
  StronglySorted (objective_order "vpm") [Sample.direct_row] /\
  Z.of_nat (List.length [Sample.direct_row]) <= 1.
Proof.
  assert (H : recommend_routes Sample.st "LAX" "JFK" "2025-08-15" "2025-08-15"
                true 45 "vpm" None None None 1 default_db
              = inr (mkDataFrame cols [Sample.direct_row]))
    by (vm_compute; reflexivity).
  split; [exact H |].
  destruct (range_rows_sorted_then_truncated _ _ _ _ _ _ _ _ _ _ _ _ _ _ H)
    as (rows & sorted & _ & _ & _ & Hout & Hpos & _).
  split; [exact Hout |].
  apply Hpos. lia.
Defined.

(** C9 as the specification words it fails for [max_results = 0]: the
    two rows of the sample are returned, more than [max_results] rows. *)
Lemma truncation_counterexample :
  exists out,
    recommend_routes Sample.st "LAX" "JFK" "2025-08-15" "2025-08-15" true 45
      "vpm" None None None 0 default_db = inr out /\
    ~ (Z.of_nat (List.length (records out)) <= 0).
Proof.
  exists (mkDataFrame cols [Sample.direct_row; Sample.connection_row]).
  split; [vm_compute; reflexivity |]. simpl. lia.
Qed.

(** A negative [max_results] drops rows from the end. *)
Example negative_max_results :
  recommend_routes Sample.st "LAX" "JFK" "2025-08-15" "2025-08-15" true 45
    "vpm" None None None (-1) default_db
  = inr (mkDataFrame cols [Sample.direct_row]).
Proof. vm_compute. reflexivity. Qed.

(** The objective "min_fees" puts the direct flight, with the lower
    taxes, first. *)
Example sample_min_fees :
  recommend_routes Sample.st "LAX" "JFK" "2025-08-15" "2025-08-15" true 45
    "min_fees" None None None 100 default_db
  = inr (mkDataFrame cols [Sample.direct_row; Sample.connection_row]).
Proof. vm_compute. reflexivity. Qed.

(** * Further properties *)

(** ** Hub discovery *)

Lemma str_in_spec (x : string) (xs : list string) : str_in x xs = true <-> In x xs.
Proof.
  unfold str_in. rewrite existsb_exists. split.
  - intros (y & Hy & Heq). apply String.eqb_eq in Heq. subst. exact Hy.
  - intros Hin. exists x. split; [exact Hin | apply String.eqb_refl].
Qed.

(** A flight of the table from [a] to [b] on [date]. *)
Lemma select_legs_In (tbl : table) (a b date : string) (leg : Leg.t) :
  In leg (select_legs tbl a b date) <->
  exists f, In f tbl /\ Flight.route_origin f = a /\ Flight.route_destination f = b /\
            Flight.date f = date /\ leg = leg_of_flight f.
Proof.
  unfold select_legs. rewrite in_map_iff. split.
  - intros (f & <- & Hf). apply filter_In in Hf as [Hin Hf].
    apply andb_true_iff in Hf as [Hf Hd]. apply andb_true_iff in Hf as [Ho Hdst].
    apply String.eqb_eq in Ho, Hdst, Hd. exists f. auto.
  - intros (f & Hin & Ho & Hdst & Hd & ->). exists f. split; [reflexivity |].
    apply filter_In. split; [exact Hin |].
    rewrite Ho, Hdst, Hd, !String.eqb_refl. reflexivity.
Qed.

Lemma select_legs_nonempty (tbl : table) (a b date : string) :
  select_legs tbl a b date <> [] <->
  exists f, In f tbl /\ Flight.route_origin f = a /\ Flight.route_destination f = b /\
            Flight.date f = date.
Proof.
  split.
  - destruct (select_legs tbl a b date) as [| leg l] eqn:Hsel; [congruence |].
    intros _. assert (Hin : In leg (select_legs tbl a b date))
      by (rewrite Hsel; left; reflexivity).
    apply select_legs_In in Hin as (f & Hf & Ho & Hd & Hdate & _). eauto.
  - intros (f & Hf & Ho & Hd & Hdate) Hnil.
    assert (Hin : In (leg_of_flight f) (select_legs tbl a b date))
      by (apply select_legs_In; exists f; auto).
    rewrite Hnil in Hin. exact Hin.
Qed.

Lemma select_destinations_In (tbl : table) (origin date h : string) :
  In h (select_destinations tbl origin date) <->
  select_legs tbl origin h date <> [].
Proof.
  rewrite select_legs_nonempty. unfold select_destinations.
  rewrite nodup_In, in_map_iff. split.
  - intros (f & <- & Hf). apply filter_In in Hf as [Hin Hf].
    apply andb_true_iff in Hf as [Ho Hd]. apply String.eqb_eq in Ho, Hd.
    exists f. auto.
  - intros (f & Hin & Ho & Hdst & Hd). exists f. split; [exact Hdst |].
    apply filter_In. split; [exact Hin |].
    rewrite Ho, Hd, !String.eqb_refl. reflexivity.
Qed.

Lemma select_origins_In (tbl : table) (destination date h : string) :
  In h (select_origins tbl destination date) <->
  select_legs tbl h destination date <> [].
Proof.
  rewrite select_legs_nonempty. unfold select_origins.
  rewrite nodup_In, in_map_iff. split.
  - intros (f & <- & Hf). apply filter_In in Hf as [Hin Hf].
    apply andb_true_iff in Hf as [Ho Hd]. apply String.eqb_eq in Ho, Hd.
    exists f. auto.
  - intros (f & Hin & Ho & Hdst & Hd). exists f. split; [exact Ho |].
    apply filter_In. split; [exact Hin |].
    rewrite Hdst, Hd, !String.eqb_refl. reflexivity.
Qed.

(** The hubs of a table: the airports with a flight from the origin and a
    flight to the destination on the date, each once. *)
Lemma hubs_of_table (tbl : table) (origin destination date h : string) :
  let hubs := set_inter (select_destinations tbl origin date)
                        (select_origins tbl destination date) in
  (In h hubs <->
   select_legs tbl origin h date <> [] /\ select_legs tbl h destination date <> []) /\
  NoDup hubs.
Proof.
  unfold set_inter. split.
  - rewrite filter_In, str_in_spec, select_destinations_In, select_origins_In.
    reflexivity.
  - apply NoDup_filter. apply NoDup_nodup.
Qed.

(** X1. An airport is among the hubs [get_possible_hub_airports] returns
    exactly when the table has a flight from the origin to it and a flight
    from it to the destination, both on the date; no hub is listed twice.
    The helper inside [recommend_routes] does the same on the table of
    [db_path]. *)
Theorem possible_hubs_are_the_intersection
    (st : store) (db_path origin destination date h : string) :
  let flight a b tbl :=
    exists f, In f tbl /\ Flight.route_origin f = a /\
              Flight.route_destination f = b /\ Flight.date f = date in
  (In h (get_possible_hub_airports st origin destination date) <->
   flight origin h (connect st default_db) /\
   flight h destination (connect st default_db)) /\
  NoDup (get_possible_hub_airports st origin destination date) /\
  (In h (_get_possible_hub_airports st db_path origin destination date) <->
   flight origin h (connect st db_path) /\ flight h destination (connect st db_path)) /\
  NoDup (_get_possible_hub_airports st db_path origin destination date).
Proof.
  intros flight. unfold flight.
  rewrite <- !select_legs_nonempty.
  unfold get_possible_hub_airports, _get_possible_hub_airports.
  destruct (hubs_of_table (connect st default_db) origin destination date h) as [H1 H2].
  destruct (hubs_of_table (connect st db_path) origin destination date h) as [H3 H4].
  auto.
Qed.

(** On the sample ORD is the one hub from LAX to JFK. *)
Example sample_hubs :
  get_possible_hub_airports Sample.st "LAX" "JFK" "2025-08-15" = ["ORD"%string].
Proof. vm_compute. reflexivity. Qed.

(** ** The synthesizer as a comprehension *)



Section Comprehension.
Context {RT : PyRuntime}.





End Comprehension.



(** The malformed arrival time of the flight to DEN is never read, as no
    flight leaves DEN; with ORD and DEN as hubs the call returns the
    connection through ORD. *)
Example unreached_timestamp_is_not_parsed :
  get_synthetic_routes Demo.st_den "LAX" "JFK" "2025-08-15" ["DEN"; "ORD"]%string 45
  = inr [Sample.connection].
Proof. vm_compute. reflexivity. Qed.

(** ** Hubs without both legs, and the minimum layover *)

Lemma for_each_unchanged {A S} (xs : list A) (s : S) :
  for_each xs (fun _ acc => ret acc) s = inr s.
Proof. induction xs as [| x xs IH]; simpl; [reflexivity | exact IH]. Qed.

(** Elements on which the body does nothing can be left out of the loop. *)
Lemma for_each_skip {A S} (keep : A -> bool) (body : A -> S -> result S)
    (xs : list A) :
  (forall x s, In x xs -> keep x = false -> body x s = inr s) ->
  forall s, for_each xs body s = for_each (filter keep xs) body s.
Proof.
  induction xs as [| x xs IH]; intros Hskip s; [reflexivity |].
  assert (Hrest : forall y t, In y xs -> keep y = false -> body y t = inr t)
    by (intros y t Hy; apply Hskip; right; exact Hy).
  cbn [filter]. destruct (keep x) eqn:Hk.
  - cbn [for_each]. destruct (body x s) as [e | s1]; simpl;
      [reflexivity | apply IH; exact Hrest].
  - cbn [for_each]. rewrite (Hskip x s (or_introl eq_refl) Hk). simpl.
    apply IH; exact Hrest.
Qed.

Section HubsAndLayover.
Context {RT : PyRuntime}.

(** X4. Hub discovery changes nothing in the routes: for any list of
    hubs, [get_synthetic_routes] returns (or raises) the same as on the
    hubs of the list that [get_possible_hub_airports] finds; a hub
    without a flight from the origin or without a flight to the
    destination on the date adds no tuple and reads no timestamp. *)
Theorem undiscovered_hubs_add_nothing
    (st : store) (origin destination date : string) (hubs : list string) (m : Z) :
  get_synthetic_routes st origin destination date hubs m
  = get_synthetic_routes st origin destination date
      (filter (fun h => str_in h (get_possible_hub_airports st origin destination date))
              hubs) m.
Proof.
  unfold get_synthetic_routes.
  apply for_each_skip. intros hub acc _ Hout.
  assert (Hskip : select_legs (connect st default_db) origin hub date = [] \/
                  select_legs (connect st default_db) hub destination date = []).
  { destruct (select_legs (connect st default_db) origin hub date) eqn:H1; [auto |].
    destruct (select_legs (connect st default_db) hub destination date) eqn:H2;
      [auto |].
    assert (Hhub : In hub (get_possible_hub_airports st origin destination date)).
    { apply hubs_of_table. rewrite H1, H2. split; discriminate. }
    apply str_in_spec in Hhub. congruence. }
  destruct Hskip as [-> | ->]; [reflexivity |].
  apply for_each_unchanged.
Qed.



End HubsAndLayover.


(** ** Single-date mode: ties and exceptions *)

Section BestPickMore.
Context {RT : PyRuntime}.

(** [max] returns the first of the elements with the greatest key: every
    element before it has a smaller key. *)
Lemma py_max_from_first {A} (key : A -> pynum) (xs : list A) (best : A) :
  exists pre post,
    best :: xs = pre ++ py_max_from key best xs :: post /\
    Forall (fun x => (num_val (key x)
                      < num_val (key (py_max_from key best xs)))%Q) pre /\
    Forall (fun x => (num_val (key x)
                      <= num_val (key (py_max_from key best xs)))%Q) post.
Proof.
  revert best. induction xs as [| x xs IH]; intros best; cbn [py_max_from].
  - exists [], []. repeat split; constructor.
  - destruct (py_ltb (key best) (key x)) eqn:Hlt.
    + apply py_ltb_true in Hlt.
      destruct (IH x) as (pre & post & Heq & Hpre & Hpost).
      destruct (py_max_from_greatest key xs x) as [_ Hall].
      inversion Hall as [| ? ? Hx _]; subst.
      remember (py_max_from key x xs) as r.
      exists (best :: pre), post. rewrite Heq. split; [reflexivity |].
      split; [| exact Hpost]. constructor; [lra | exact Hpre].
    + apply py_ltb_false in Hlt.
      destruct (IH best) as (pre & post & Heq & Hpre & Hpost).
      remember (py_max_from key best xs) as r.
      destruct pre as [| b pre]; simpl in Heq; injection Heq as Hb Hxs.
      * exists [], (x :: xs). split; [simpl; congruence |].
        split; [constructor |].
        constructor; [rewrite <- Hb; exact Hlt | rewrite Hxs; exact Hpost].
      * inversion Hpre as [| ? ? Hbest Hpre']; subst b.
        exists (best :: x :: pre), post. split; [simpl; congruence |].
        split; [| exact Hpost].
        constructor; [exact Hbest |]. constructor; [lra | exact Hpre'].
Qed.

(** X6. Among options of equal score [recommend_best_route] returns the
    one gathered first: every option before the returned one in the list
    (direct flights in table order, then synthetic routes in synthesizer
    order) has a strictly smaller value per mile, so a direct flight wins
    a tie against a synthetic route. *)
Theorem best_route_is_the_first_maximum
    (st : store) (origin destination date : string) (hubs : list string) (m : Z)
    (synthetic : list Synth.t) (all_options : list Opt.t) (best : Opt.t) :
  get_synthetic_routes st origin destination date hubs m = inr synthetic ->
  gather_options origin destination
    (get_direct_flights st origin destination date) synthetic = inr all_options ->
  recommend_best_route st origin destination date hubs m = inr (Best best) ->
  exists pre post,
    all_options = pre ++ best :: post /\
    Forall (fun o => (num_val (Opt.value_per_mile o)
                      < num_val (Opt.value_per_mile best))%Q) pre /\
    Forall (fun o => (num_val (Opt.value_per_mile o)
                      <= num_val (Opt.value_per_mile best))%Q) post.
Proof.
  intros Hsyn Hall. unfold recommend_best_route.
  rewrite Hsyn. simpl. rewrite Hall. simpl.
  destruct all_options as [| o rest]; intros H; inversion H; subst.
  apply py_max_from_first.
Qed.

Lemma gather_options_raises_only (origin destination : string)
    (directs : list Leg.t) (synthetic : list Synth.t) (e : exn) :
  gather_options origin destination directs synthetic = inl e ->
  e = zero_miles_error.
Proof.
  unfold gather_options. intros H.
  apply bind_inl in H as [H | (opts & _ & H)]; revert H;
    apply (for_each_raises_only (fun e => e = zero_miles_error));
    intros x s e1 _ H;
    apply bind_inl in H as [H | (v & _ & H)]; try discriminate;
    apply calculate_raises_only in H; exact H.
Qed.

(** X7. Single-date mode does not catch the zero-miles error either: when
    the synthesizer returns and a direct flight has miles equal to zero,
    or a synthetic route has total miles equal to zero,
    [recommend_best_route] raises the zero-miles error whatever the other
    options are. *)
Theorem zero_miles_aborts_best_route
    (st : store) (origin destination date : string) (hubs : list string) (m : Z)
    (synthetic : list Synth.t) :
  get_synthetic_routes st origin destination date hubs m = inr synthetic ->
  (exists f, In f (get_direct_flights st origin destination date) /\
             (num_val (Leg.miles f) == 0)%Q) \/
  (exists s, In s synthetic /\ (num_val (Synth.total_miles s) == 0)%Q) ->
  recommend_best_route st origin destination date hubs m = inl zero_miles_error.
Proof.
  intros Hsyn Hzero. unfold recommend_best_route. rewrite Hsyn. simpl.
  assert (Hraise : exists e,
            gather_options origin destination
              (get_direct_flights st origin destination date) synthetic = inl e).
  { unfold gather_options.
    destruct Hzero as [(f & Hf & Hz) | (s & Hs & Hz)].
    - match goal with
      | |- exists e, bind (for_each ?xs ?body ?s0) ?k = inl e =>
          destruct (for_each_raises body xs f Hf) with (s := s0) as (e & He)
      end.
      + intros s. eexists. rewrite (calculate_zero _ _ _ Hz). reflexivity.
      + exists e. rewrite He. reflexivity.
    - match goal with
      | |- exists e, bind ?loop ?k = inl e => destruct loop as [e | opts]
      end; simpl; [eauto |].
      apply (for_each_raises _ synthetic s Hs).
      intros s0. eexists. rewrite (calculate_zero _ _ _ Hz). reflexivity. }
  destruct Hraise as (e & He).
  rewrite He. simpl. f_equal. apply gather_options_raises_only in He. exact He.
Qed.

End BestPickMore.

Lemma zero_miles_aborts_best_route_witness :
  get_synthetic_routes Sample.st_zero "LAX" "JFK" "2025-08-15" [] 45 = inr [] /\
  recommend_best_route Sample.st_zero "LAX" "JFK" "2025-08-15" [] 45
  = inl zero_miles_error.
Proof.
  split; [reflexivity |].
  apply (zero_miles_aborts_best_route Sample.st_zero "LAX" "JFK" "2025-08-15"
           [] 45 [] eq_refl).
  left. exists (leg_of_flight Sample.zero_mile_flight). split.
  - vm_compute. right; left; reflexivity.
  - reflexivity.
Defined.

Lemma best_route_is_the_first_maximum_witness :
  recommend_best_route Tie.st "LAX" "JFK" "2025-08-15" [] 45
    = inr (Best Sample.direct_option) /\
  exists pre post,
    [Sample.direct_option; Tie.twin_option] = pre ++ Sample.direct_option :: post /\
    Forall (fun o => (num_val (Opt.value_per_mile o)
                      < num_val (Opt.value_per_mile Sample.direct_option))%Q) pre /\
    Forall (fun o => (num_val (Opt.value_per_mile o)
                      <= num_val (Opt.value_per_mile Sample.direct_option))%Q) post.
Proof.
  assert (H : recommend_best_route Tie.st "LAX" "JFK" "2025-08-15" [] 45
              = inr (Best Sample.direct_option)) by (vm_compute; reflexivity).
  split; [exact H |].
  apply (best_route_is_the_first_maximum Tie.st "LAX" "JFK" "2025-08-15" [] 45 []
           [Sample.direct_option; Tie.twin_option] Sample.direct_option).
  - reflexivity.
  - vm_compute. reflexivity.
  - exact H.
Defined.

(** ** Range mode: the order of the two dates *)

Section DateOrder.
Context {RT : PyRuntime}.

Lemma accumulate_rows_swap (st : store) (db_path origin destination : string)
    (date1 date2 : string) (include_synthetic : bool) (m : Z) (d1 d2 : Z) :
  fromisoformat_date date1 = inr d1 ->
  fromisoformat_date date2 = inr d2 ->
  accumulate_rows st db_path origin destination date1 date2 include_synthetic m
  = accumulate_rows st db_path origin destination date2 date1 include_synthetic m.
Proof.
  intros H1 H2. unfold accumulate_rows. rewrite H1, H2. simpl.
  destruct (d2 <? d1) eqn:Ha, (d1 <? d2) eqn:Hb; try reflexivity.
  - apply Z.ltb_lt in Ha, Hb. lia.
  - apply Z.ltb_ge in Ha, Hb. assert (d1 = d2) by lia. subst. reflexivity.
Qed.

(** X8. When both dates parse, [recommend_routes] gives the same result
    for (start, end) and for (end, start): the days from the earlier to
    the later date are visited in ascending order either way. *)
Theorem recommend_routes_date_order_is_irrelevant
    (st : store) (origin destination date1 date2 : string)
    (include_synthetic : bool) (min_layover_minutes : Z) (objective : string)
    (min_vpm_cents max_price : option pynum)
    (airline_allowlist : option (list string)) (max_results : Z) (db_path : string)
    (d1 d2 : Z) :
  fromisoformat_date date1 = inr d1 ->
  fromisoformat_date date2 = inr d2 ->
  recommend_routes st origin destination date1 date2 include_synthetic
    min_layover_minutes objective min_vpm_cents max_price airline_allowlist
    max_results db_path
  = recommend_routes st origin destination date2 date1 include_synthetic
      min_layover_minutes objective min_vpm_cents max_price airline_allowlist
      max_results db_path.
Proof.
  intros H1 H2. rewrite !recommend_routes_pipeline.
  rewrite (accumulate_rows_swap _ _ _ _ _ _ _ _ _ _ H1 H2). reflexivity.
Qed.

End DateOrder.

Lemma recommend_routes_date_order_is_irrelevant_witness :
  fromisoformat_date "2025-08-17" = inr 20317 /\
  fromisoformat_date "2025-08-14" = inr 20314 /\
  recommend_routes Sample.st "LAX" "JFK" "2025-08-17" "2025-08-14" true 45
    "vpm" None None None 100 default_db
  = inr (mkDataFrame cols [Sample.direct_row; Sample.connection_row]).
Proof.
  assert (H1 : fromisoformat_date "2025-08-17" = inr 20317) by (vm_compute; reflexivity).
  assert (H2 : fromisoformat_date "2025-08-14" = inr 20314) by (vm_compute; reflexivity).
  split; [exact H1 |]. split; [exact H2 |].
  rewrite (recommend_routes_date_order_is_irrelevant Sample.st "LAX" "JFK"
             "2025-08-17" "2025-08-14" true 45 "vpm" None None None 100 default_db
             20317 20314 H1 H2).
  vm_compute. reflexivity.
Defined.

(** ** Range mode: where the rows come from *)

Lemma In_firstn {A} (n : nat) (l : list A) (x : A) : In x (firstn n l) -> In x l.
Proof.
  intros H. rewrite <- (firstn_skipn n l). apply in_or_app. left; exact H.
Qed.

Lemma In_slice_to {A} (n : Z) (l : list A) (x : A) : In x (slice_to n l) -> In x l.
Proof. unfold slice_to. destruct (0 <=? n); apply In_firstn. Qed.

Section Rows.
Context {RT : PyRuntime}.

(** A score that [calculate_value_per_mile] returns is a float, and the
    miles it was given are not zero. *)
Lemma calculate_returns (p t m v : pynum) :
  calculate_value_per_mile p t m = inr v ->
  is_float v /\ py_eqb m (PyInt 0) = false.
Proof.
  unfold calculate_value_per_mile, raise, ret.
  destruct (py_eqb m (PyInt 0)); [discriminate |].
  intros H. inversion H; subst; clear H. split; [| reflexivity].
  unfold py_truediv, py_mul.
  destruct (py_sub p t), m; eexists; reflexivity.
Qed.

Lemma scored_fields (date_str type origin destination airline : string)
    (p t m v : pynum) (route : list (string * string)) (legs : list Leg.t) :
  calculate_value_per_mile (py_float p) (py_float t) (py_int m) = inr v ->
  row_scored (Row.mk date_str type origin destination airline
                     (py_float p) (py_int m) (py_float t) (py_float v) route legs).
Proof.
  intros Hv. destruct (calculate_returns _ _ _ _ Hv) as [(q & ->) Hm].
  unfold row_scored. simpl.
  repeat split; try (eexists; reflexivity); [| exact Hv].
  exists (to_int m). split; [reflexivity |].
  intros Hz. unfold py_int in Hm. rewrite Hz in Hm. discriminate.
Qed.

(** The rows one day adds. *)
Lemma rows_of_day_rows (Q : Row.t -> Prop)
    (st : store) (db_path origin destination : string)
    (include_synthetic : bool) (m : Z) (day : Z) (rows rows' : list Row.t) :
  (forall r, row_scored r ->
             Row.origin r = origin -> Row.destination r = destination ->
             Row.date r = date_isoformat day ->
             direct_row_from st db_path origin destination (date_isoformat day) r \/
             (include_synthetic = true /\
              synthetic_row_from st db_path origin destination (date_isoformat day) m r) ->
             Q r) ->
  Forall Q rows ->
  rows_of_day st db_path origin destination include_synthetic m day rows = inr rows' ->
  Forall Q rows'.
Proof.
  intros HQ Hrows. unfold rows_of_day. intros H.
  apply bind_inr in H as (rows1 & Hdirect & H).
  assert (H1 : Forall Q rows1).
  { revert Hdirect. apply for_each_invariant; [| exact Hrows].
    intros f s s' Hf Hs Hstep.
    apply bind_inr in Hstep as (v & Hv & Hstep). inversion Hstep; subst; clear Hstep.
    apply Forall_app. split; [exact Hs |]. constructor; [| constructor].
    apply HQ; try reflexivity; [apply scored_fields; exact Hv |].
    left. exists f. repeat split. exact Hf. }
  destruct include_synthetic; [| inversion H; subst; exact H1].
  apply bind_inr in H as (synthetic & Hbuild & H).
  pose proof (build_synthetic_routes_layover _ _ _ _ _ _ _ _ Hbuild) as Hlay.
  pose proof (build_synthetic_routes_totals _ _ _ _ _ _ _ _ Hbuild) as Htot.
  rewrite Forall_forall in Hlay, Htot.
  revert H. apply for_each_invariant; [| exact H1].
  intros s acc acc' Hs Hacc Hstep.
  apply bind_inr in Hstep as (v & Hv & Hstep). inversion Hstep; subst; clear Hstep.
  apply Forall_app. split; [exact Hacc |]. constructor; [| constructor].
  apply HQ; try reflexivity; [apply scored_fields; exact Hv |].
  right. split; [reflexivity |]. exists s.
  split; [apply (Htot s Hs) |]. split; [apply (Hlay s Hs) |].
  repeat split.
Qed.

Lemma accumulate_rows_rows (st : store) (db_path origin destination : string)
    (start_date end_date : string) (include_synthetic : bool) (m : Z)
    (rows : list Row.t) :
  accumulate_rows st db_path origin destination start_date end_date
    include_synthetic m = inr rows ->
  exists d1 d2,
    fromisoformat_date start_date = inr d1 /\
    fromisoformat_date end_date = inr d2 /\
    Forall (fun r => row_from_query st db_path origin destination include_synthetic m
                       (Z.min d1 d2) (Z.max d1 d2) r /\ row_scored r) rows.
Proof.
  unfold accumulate_rows. intros H.
  apply bind_inr in H as (d1 & H1 & H). apply bind_inr in H as (d2 & H2 & H).
  exists d1, d2. split; [exact H1 |]. split; [exact H2 |].
  assert (Hrange : forall day,
            In day (let '(a, b) := if d2 <? d1 then (d2, d1) else (d1, d2) in
                    days_from_to a b) ->
            Z.min d1 d2 <= day <= Z.max d1 d2).
  { intros day. destruct (d2 <? d1) eqn:Hc; intros Hin;
      apply in_days_from_to in Hin;
      [apply Z.ltb_lt in Hc | apply Z.ltb_ge in Hc]; lia. }
  destruct (d2 <? d1); revert H;
    (apply for_each_invariant; [| constructor]);
    intros day acc acc' Hday Hacc;
    apply rows_of_day_rows; try exact Hacc;
    intros r Hsc Ho Hd Hdate Hkind;
    (split; [| exact Hsc]);
    (split; [exact Ho |]); (split; [exact Hd |]);
    exists day; (split; [apply Hrange; exact Hday |]); split; assumption.
Qed.

(** The rows of the result are among the accumulated rows. *)
Lemma recommend_routes_rows
    (st : store) (origin destination start_date end_date : string)
    (include_synthetic : bool) (min_layover_minutes : Z) (objective : string)
    (min_vpm_cents max_price : option pynum)
    (airline_allowlist : option (list string)) (max_results : Z) (db_path : string)
    (out : DataFrame) :
  recommend_routes st origin destination start_date end_date include_synthetic
    min_layover_minutes objective min_vpm_cents max_price airline_allowlist
    max_results db_path = inr out ->
  exists rows,
    accumulate_rows st db_path origin destination start_date end_date
      include_synthetic min_layover_minutes = inr rows /\
    forall r, In r (records out) ->
              In r rows /\
              keep_row min_vpm_cents max_price airline_allowlist r = true.
Proof.
  rewrite recommend_routes_pipeline.
  destruct (accumulate_rows st db_path origin destination start_date end_date
              include_synthetic min_layover_minutes) as [e | rows]; simpl;
    [discriminate |].
  intros H. inversion H; subst; clear H. exists rows. split; [reflexivity |].
  intros r Hr. rewrite records_truncate in Hr.
  set (kept := df_select (keep_row min_vpm_cents max_price airline_allowlist)
                 (mkDataFrame cols rows)) in *.
  destruct (objective_sort_sorted objective kept eq_refl) as [_ Hperm].
  assert (Hin : In r (records (objective_sort objective kept))).
  { destruct (max_results =? 0); [exact Hr | apply In_slice_to in Hr; exact Hr]. }
  apply (Permutation_in r (Permutation_sym Hperm)) in Hin.
  unfold kept in Hin. simpl in Hin. apply filter_In in Hin. exact Hin.
Qed.

(** X9. Every row of the table [recommend_routes] returns carries the
    query's origin and destination and the ISO date of a day between the
    two dates, and is either the row of a direct flight of the table on
    that day, or, only if synthetic routes are included, the row of two
    legs of the table through a hub, labelled with both airlines joined
    by "+", whose second leg leaves later than the first arrives plus the
    minimum layover. *)
Theorem result_rows_come_from_the_query
    (st : store) (origin destination start_date end_date : string)
    (include_synthetic : bool) (min_layover_minutes : Z) (objective : string)
    (min_vpm_cents max_price : option pynum)
    (airline_allowlist : option (list string)) (max_results : Z) (db_path : string)
    (out : DataFrame) :
  recommend_routes st origin destination start_date end_date include_synthetic
    min_layover_minutes objective min_vpm_cents max_price airline_allowlist
    max_results db_path = inr out ->
  exists d1 d2,
    fromisoformat_date start_date = inr d1 /\
    fromisoformat_date end_date = inr d2 /\
    Forall (row_from_query st db_path origin destination include_synthetic
              min_layover_minutes (Z.min d1 d2) (Z.max d1 d2)) (records out).
Proof.
  intros H. apply recommend_routes_rows in H as (rows & Hacc & Hsub).
  apply accumulate_rows_rows in Hacc as (d1 & d2 & H1 & H2 & Hall).
  exists d1, d2. split; [exact H1 |]. split; [exact H2 |].
  rewrite Forall_forall in *. intros r Hr.
  apply (Hall r (proj1 (Hsub r Hr))).
Qed.

(** X10. In every row of the table [recommend_routes] returns, price,
    taxes and score are floats, miles is an int other than zero, and the
    score is [calculate_value_per_mile] of the row's own price, taxes and
    miles: the table never shows a score that its other columns do not
    give. *)
Theorem result_rows_are_scored
    (st : store) (origin destination start_date end_date : string)
    (include_synthetic : bool) (min_layover_minutes : Z) (objective : string)
    (min_vpm_cents max_price : option pynum)
    (airline_allowlist : option (list string)) (max_results : Z) (db_path : string)
    (out : DataFrame) :
  recommend_routes st origin destination start_date end_date include_synthetic
    min_layover_minutes objective min_vpm_cents max_price airline_allowlist
    max_results db_path = inr out ->
  Forall row_scored (records out).
Proof.
  intros H. apply recommend_routes_rows in H as (rows & Hacc & Hsub).
  apply accumulate_rows_rows in Hacc as (d1 & d2 & _ & _ & Hall).
  rewrite Forall_forall in *. intros r Hr.
  apply (Hall r (proj1 (Hsub r Hr))).
Qed.

End Rows.

(** ** Text: [strip] and [split] *)

Lemma rstrip_cons (c : ascii) (s : string) :
  rstrip (String c s) = EmptyString \/
  exists r, rstrip (String c s) = String c r.
Proof.
  simpl. destruct (rstrip s); [destruct (isspace c) |]; eauto.
Qed.

Lemma rstrip_idempotent (s : string) : rstrip (rstrip s) = rstrip s.
Proof.
  induction s as [| c s IH]; [reflexivity |].
  simpl. destruct (rstrip s) as [| d r] eqn:Hr.
  - destruct (isspace c) eqn:Hc; [reflexivity |]. simpl. rewrite Hc. reflexivity.
  - change (rstrip (String c (String d r)))
      with (match rstrip (String d r) with
            | EmptyString => if isspace c then EmptyString else String c EmptyString
            | String a b => String c (String a b)
            end).
    rewrite IH. reflexivity.
Qed.

Lemma lstrip_head (s : string) (c : ascii) (t : string) :
  lstrip s = String c t -> isspace c = false.
Proof.
  induction s as [| a s IH]; simpl; [discriminate |].
  destruct (isspace a) eqn:Ha; [exact IH |].
  intros H. inversion H; subst. exact Ha.
Qed.

(** What [strip] returns starts with no white space. *)
Lemma strip_head (s : string) (c : ascii) (t : string) :
  strip s = String c t -> isspace c = false.
Proof.
  unfold strip. destruct (lstrip s) as [| a u] eqn:Hl; [discriminate |].
  destruct (rstrip_cons a u) as [H | (r & H)]; rewrite H; [discriminate |].
  intros Heq. inversion Heq; subst. apply (lstrip_head s c u Hl).
Qed.

(** Stripping twice is stripping once. *)
Lemma strip_idempotent (s : string) : strip (strip s) = strip s.
Proof.
  destruct (strip s) as [| c t] eqn:Hs; [reflexivity |].
  pose proof (strip_head s c t Hs) as Hc.
  unfold strip at 1. simpl lstrip. rewrite Hc.
  rewrite <- Hs. unfold strip. apply rstrip_idempotent.
Qed.

Lemma rstrip_nonspace_head (c : ascii) (s : string) :
  isspace c = false -> rstrip (String c s) <> EmptyString.
Proof.
  intros Hc. simpl. destruct (rstrip s); [rewrite Hc |]; discriminate.
Qed.

(** [strip] leaves nothing exactly of the texts made of white space. *)
Lemma strip_empty (s : string) :
  strip s = EmptyString <-> Forall (fun c => isspace c = true) (list_ascii_of_string s).
Proof.
  unfold strip. induction s as [| c s IH]; simpl.
  - split; [constructor | reflexivity].
  - destruct (isspace c) eqn:Hc.
    + rewrite IH. split; [intros H; constructor; assumption |].
      intros H. inversion H; assumption.
    + split.
      * intros H. exfalso. revert H. apply rstrip_nonspace_head. exact Hc.
      * intros H. inversion H; congruence.
Qed.

(** A text without the separator is its own single piece. *)
Lemma split_on_absent (sep : ascii) (s : string) :
  Forall (fun c => Ascii.eqb c sep = false) (list_ascii_of_string s) ->
  split_on sep s = [s].
Proof.
  induction s as [| c s IH]; simpl; intros H; [reflexivity |].
  inversion H as [| ? ? Hc Hs]; subst. rewrite Hc, (IH Hs). reflexivity.
Qed.

Lemma space_is_no_comma (c : ascii) : isspace c = true -> Ascii.eqb c comma = false.
Proof.
  destruct c as [[] [] [] [] [] [] [] []]; vm_compute; congruence.
Qed.

(** A blank text has one piece, and it is blank. *)
Lemma blank_text_pieces (text : string) :
  strip text = EmptyString ->
  forall piece, In piece (split_on comma text) -> strip piece = EmptyString.
Proof.
  intros Hblank piece Hin. apply strip_empty in Hblank.
  rewrite split_on_absent in Hin.
  - destruct Hin as [<- | []]. apply strip_empty. exact Hblank.
  - eapply Forall_impl; [| exact Hblank]. apply space_is_no_comma.
Qed.

(** ** The dashboard: the allowlist text *)

Section DashboardAllowlist.
Context {RT : PyRuntime}.

Lemma ui_allowlist_passes (text : string) (r : Row.t) :
  passes_allowlist (ui_allowlist text) r <->
  (forall piece, In piece (split_on comma text) -> strip piece = EmptyString) \/
  (exists piece, In piece (split_on comma text) /\ strip piece <> EmptyString /\
                 substring_ci (strip piece) (Row.airline r)).
Proof.
  unfold ui_allowlist.
  destruct (String.eqb (strip text) "") eqn:Hblank; simpl.
  - apply String.eqb_eq in Hblank. split; [intros _; left | tauto].
    apply blank_text_pieces. exact Hblank.
  - set (pieces := split_on comma text).
    assert (Hentry : forall e,
              In e (map strip (filter (fun a => negb (String.eqb (strip a) "")) pieces))
              <-> exists piece, In piece pieces /\ strip piece <> EmptyString /\
                                e = strip piece).
    { intros e. rewrite in_map_iff. split.
      - intros (piece & <- & Hp). apply filter_In in Hp as [Hin Hnb].
        apply negb_true_iff, String.eqb_neq in Hnb. eauto.
      - intros (piece & Hin & Hnb & ->). exists piece. split; [reflexivity |].
        apply filter_In. split; [exact Hin |].
        apply negb_true_iff, String.eqb_neq. exact Hnb. }
    unfold nonblank. split.
    + intros [Hnone | (e & He & Hnb & Hsub)].
      * left. intros piece Hin.
        destruct (string_dec (strip piece) EmptyString) as [Hb | Hb]; [exact Hb |].
        exfalso. apply (Hnone (strip piece)).
        -- apply Hentry. eauto.
        -- rewrite strip_idempotent. exact Hb.
      * right. apply Hentry in He as (piece & Hin & Hp & ->).
        rewrite strip_idempotent in Hsub. eauto.
    + intros [Hall | (piece & Hin & Hnb & Hsub)].
      * left. intros e He _. apply Hentry in He as (piece & Hin & Hp & _).
        apply Hp, Hall, Hin.
      * right. exists (strip piece). split; [apply Hentry; eauto |].
        rewrite strip_idempotent. split; assumption.
Qed.

(** X11. For the allowlist the dashboard builds from its text field, a
    row passes the backend's filters exactly when it passes the two
    thresholds and either every piece of the text between commas is
    blank (the filter is then off), or some piece that is not blank
    occurs, stripped, in the airline label, letter case aside. *)
Theorem dashboard_allowlist_matches_pieces
    (min_vpm_cents max_price : option pynum) (text : string) (r : Row.t) :
  keep_row min_vpm_cents max_price (ui_allowlist text) r = true <->
  passes_min_vpm min_vpm_cents r /\ passes_max_price max_price r /\
  ((forall piece, In piece (split_on comma text) -> strip piece = EmptyString) \/
   (exists piece, In piece (split_on comma text) /\ strip piece <> EmptyString /\
                  substring_ci (strip piece) (Row.airline r))).
Proof.
  rewrite keep_row_spec. unfold survives. rewrite ui_allowlist_passes. reflexivity.
Qed.

End DashboardAllowlist.

(** The text ["delta,  ua , "] keeps the connection flown by UA and DL
    and drops the direct flight of AA. *)
Example dashboard_allowlist_example :
  ui_allowlist "delta,  ua , " = Some ["delta"; "ua"]%string /\
  apply_filters None None (ui_allowlist "delta,  ua , ")
    (mkDataFrame cols [Sample.direct_row; Sample.connection_row])
  = inr (mkDataFrame cols [Sample.connection_row]).
Proof. split; vm_compute; reflexivity. Qed.

(** ** The command-line entry point *)


Section CommandLineFacts.
Context {RT : PyRuntime}.
Variable int_of_str : string -> option Z.



End CommandLineFacts.


(** ** The dashboard: the layover column *)

(** [int] of a float that is at least the integer [m] is at least [m]. *)
Lemma Qtrunc_lower_bound (m : Z) (q : Q) : (inject_Z m <= q)%Q -> m <= Qtrunc q.
Proof.
  destruct q as [n d]. unfold Qle, Qtrunc. simpl. rewrite Z.mul_1_r. intros H.
  destruct (Z_le_gt_dec 0 n) as [Hn | Hn].
  - rewrite Z.quot_div_nonneg by lia.
    apply Z.div_le_lower_bound; [lia | rewrite Z.mul_comm; exact H].
  - pose proof (Z.quot_rem' n (Z.pos d)) as Hqr.
    pose proof (Z.rem_bound_pos_neg n (Z.pos d)) as Hrem.
    assert (Hr : Z.rem n (Z.pos d) <= 0) by lia.
    nia.
Qed.

Section LayoverColumn.
Context {RT : PyRuntime}.

Lemma fl_monotone_eq (x y : Q) : fl_monotone -> (x == y)%Q -> (fl x == fl y)%Q.
Proof.
  intros Hmono Heq. apply Qle_antisym; apply Hmono; rewrite Heq; apply Qle_refl.
Qed.

(** The minutes of a difference that exceeds [m] minutes. *)
Lemma minutes_lower_bound (m delta : Z) :
  fl_monotone -> fl_exact_on [60; m; 60 * m] ->
  timedelta_minutes m < delta ->
  m <= to_int (py_truediv (total_seconds delta) (PyInt 60)).
Proof.
  intros Hmono Hexact Hdelta.
  unfold fl_exact_on in Hexact. rewrite Forall_forall in Hexact.
  assert (H60 : (fl (inject_Z 60) == inject_Z 60)%Q)
    by (apply Hexact; left; reflexivity).
  assert (Hm : (fl (inject_Z m) == inject_Z m)%Q)
    by (apply Hexact; right; left; reflexivity).
  assert (H60m : (fl (inject_Z (60 * m)) == inject_Z (60 * m))%Q)
    by (apply Hexact; right; right; left; reflexivity).
  clear Hexact.
  unfold total_seconds, py_truediv, to_float, to_int.
  apply Qtrunc_lower_bound.
  set (secs := fl (inject_Z delta / 1000000)).
  assert (Hsecs : (inject_Z (60 * m) <= secs)%Q).
  { rewrite <- H60m. apply Hmono. apply Qle_shift_div_l; [reflexivity |].
    change 1000000%Q with (inject_Z 1000000).
    rewrite <- inject_Z_mult, <- Zle_Qle.
    unfold timedelta_minutes in Hdelta. lia. }
  rewrite <- Hm. apply Hmono.
  rewrite H60. apply Qle_shift_div_l; [reflexivity |].
  rewrite <- inject_Z_mult, Z.mul_comm. exact Hsecs.
Qed.

(** X13. The dashboard never shows a layover shorter than the minimum
    asked for: for every row of type "Synthetic" that the search
    returns, [_leg_columns] computes a number of minutes, and it is at
    least [min_layover_minutes], provided the rounding to doubles keeps
    the order and is exact on 60, on the minimum and on sixty times the
    minimum. *)
Theorem dashboard_layover_is_at_least_the_minimum
    (st : store) (origin destination start_date end_date : string)
    (include_synthetic : bool) (min_layover_minutes : Z)
    (min_vpm_cents max_price : pynum) (airline_allowlist_text : string)
    (max_results : Z) (out : DataFrame) (r : Row.t) :
  fl_monotone ->
  fl_exact_on [60; min_layover_minutes; 60 * min_layover_minutes] ->
  run_search st origin destination start_date end_date include_synthetic
    min_layover_minutes min_vpm_cents max_price airline_allowlist_text max_results
  = inr out ->
  In r (records out) ->
  Row.type r = "Synthetic"%string ->
  exists minutes,
    layover_minutes (Row.flights_json r) = Some minutes /\
    min_layover_minutes <= minutes.
Proof.
  intros Hmono Hexact Hrun Hr Htype. unfold run_search in Hrun.
  apply recommend_routes_rows in Hrun as (rows & Hacc & Hsub).
  apply accumulate_rows_rows in Hacc as (d1 & d2 & _ & _ & Hall).
  rewrite Forall_forall in Hall.
  destruct (Hall r (proj1 (Hsub r Hr))) as [(_ & _ & day & _ & _ & Hkind) _].
  destruct Hkind as [(f & _ & Hdirect & _) | (_ & s & _ & Hlay & _ & _ & _ & Hlegs)];
    [rewrite Hdirect in Htype; discriminate |].
  destruct Hlay as (arr1 & dep2 & Harr & Hdep & Hgt).
  rewrite Hlegs. unfold layover_minutes, leg_json. simpl.
  rewrite Harr, Hdep. eexists. split; [reflexivity |].
  apply minutes_lower_bound; try assumption. lia.
Qed.

End LayoverColumn.

Lemma iso_fl_monotone : @fl_monotone IsoRuntime.
Proof.
  intros x y H. change (Qred x <= Qred y)%Q. rewrite !Qred_correct. exact H.
Qed.

Lemma iso_fl_exact (ks : list Z) : @fl_exact_on IsoRuntime ks.
Proof.
  apply Forall_forall. intros k _. exact (Qred_correct (inject_Z k)).
Qed.

Lemma sample_search :
  run_search Sample.st "LAX" "JFK" "2025-08-15" "2025-08-15" true 45
    (PyFloat 0) (PyFloat 0) "" 100
  = inr (mkDataFrame cols [Sample.direct_row; Sample.connection_row]).
Proof. vm_compute. reflexivity. Qed.

Lemma dashboard_layover_is_at_least_the_minimum_witness :
  exists minutes,
    layover_minutes (Row.flights_json Sample.connection_row) = Some minutes /\
    45 <= minutes.
Proof.
  apply (dashboard_layover_is_at_least_the_minimum Sample.st "LAX" "JFK"
           "2025-08-15" "2025-08-15" true 45 (PyFloat 0) (PyFloat 0) "" 100
           (mkDataFrame cols [Sample.direct_row; Sample.connection_row])
           Sample.connection_row).
  - exact iso_fl_monotone.
  - apply iso_fl_exact.
  - exact sample_search.
  - simpl. right; left; reflexivity.
  - reflexivity.
Defined.

(** The dashboard shows 60 minutes for the connection of the sample. *)
Example sample_layover_minutes :
  layover_minutes (Row.flights_json Sample.connection_row) = Some 60.
Proof. vm_compute. reflexivity. Qed.

Lemma result_rows_come_from_the_query_witness :
  recommend_routes Sample.st "LAX" "JFK" "2025-08-14" "2025-08-16" true 45
    "vpm" None None None 100 default_db
  = inr (mkDataFrame cols [Sample.direct_row; Sample.connection_row]) /\
  exists d1 d2,
    fromisoformat_date "2025-08-14" = inr d1 /\
    fromisoformat_date "2025-08-16" = inr d2 /\
    Forall (row_from_query Sample.st default_db "LAX" "JFK" true 45
              (Z.min d1 d2) (Z.max d1 d2))
           [Sample.direct_row; Sample.connection_row].
Proof.
  assert (H : recommend_routes Sample.st "LAX" "JFK" "2025-08-14" "2025-08-16"
                true 45 "vpm" None None None 100 default_db
              = inr (mkDataFrame cols [Sample.direct_row; Sample.connection_row]))
    by (vm_compute; reflexivity).
  split; [exact H |].
  exact (result_rows_come_from_the_query _ _ _ _ _ _ _ _ _ _ _ _ _ _ H).
Defined.

Lemma result_rows_are_scored_witness :
  recommend_routes Sample.st "LAX" "JFK" "2025-08-14" "2025-08-16" true 45
    "vpm" None None None 100 default_db
  = inr (mkDataFrame cols [Sample.direct_row; Sample.connection_row]) /\
  Forall row_scored [Sample.direct_row; Sample.connection_row].
Proof.
  assert (H : recommend_routes Sample.st "LAX" "JFK" "2025-08-14" "2025-08-16"
                true 45 "vpm" None None None 100 default_db
              = inr (mkDataFrame cols [Sample.direct_row; Sample.connection_row]))
    by (vm_compute; reflexivity).
  split; [exact H |].
  exact (result_rows_are_scored _ _ _ _ _ _ _ _ _ _ _ _ _ _ H).
Defined.

(** ** The dashboard: the rows shown *)

Section ViewRows.
Context {RT : PyRuntime}.



End ViewRows.

(** ** The dashboard: the final sort *)

(** A stable sort leaves a sorted list as it is. *)
Lemma sort_rows_of_sorted (by_ : list sort_key) (R : Row.t -> Row.t -> Prop)
    (l : list Row.t) :
  (forall a b, lex_leb by_ a b = true <-> R a b) ->
  StronglySorted R l -> sort_rows by_ l = l.
Proof.
  intros HR Hs. induction Hs as [| x l Hl IH Hx]; simpl; [reflexivity |].
  rewrite IH. destruct l as [| y l']; [reflexivity |]. simpl.
  inversion Hx as [| ? ? Hxy _]; subst. apply HR in Hxy. rewrite Hxy. reflexivity.
Qed.

Lemma StronglySorted_filter {A} (R : A -> A -> Prop) (f : A -> bool) (l : list A) :
  StronglySorted R l -> StronglySorted R (filter f l).
Proof.
  induction 1 as [| x l Hl IH Hx]; simpl; [constructor |].
  destruct (f x); [| exact IH]. constructor; [exact IH |].
  rewrite Forall_forall in *. intros y Hy. apply filter_In in Hy as [Hy _].
  apply Hx, Hy.
Qed.

Section DashboardOrder.
Context {RT : PyRuntime}.

Lemma recommend_routes_sorted
    (st : store) (origin destination start_date end_date : string)
    (include_synthetic : bool) (min_layover_minutes : Z) (objective : string)
    (min_vpm_cents max_price : option pynum)
    (airline_allowlist : option (list string)) (max_results : Z) (db_path : string)
    (out : DataFrame) :
  recommend_routes st origin destination start_date end_date include_synthetic
    min_layover_minutes objective min_vpm_cents max_price airline_allowlist
    max_results db_path = inr out ->
  StronglySorted (objective_order objective) (records out).
Proof.
  rewrite recommend_routes_pipeline.
  destruct (accumulate_rows st db_path origin destination start_date end_date
              include_synthetic min_layover_minutes) as [e | rows]; simpl;
    [discriminate |].
  intros H. inversion H; subst; clear H. rewrite records_truncate.
  set (kept := df_select (keep_row min_vpm_cents max_price airline_allowlist)
                 (mkDataFrame cols rows)).
  destruct (objective_sort_sorted objective kept eq_refl) as [Hsorted _].
  destruct (max_results =? 0); [exact Hsorted |].
  apply StronglySorted_slice_to. exact Hsorted.
Qed.

Lemma view_rows_sorted (R : Row.t -> Row.t -> Prop) (miles_balance : Z)
    (toggle : bool) (rows : list Row.t) :
  StronglySorted R rows -> StronglySorted R (view_rows miles_balance toggle rows).
Proof.
  intros Hs. unfold view_rows.
  match goal with
  | |- StronglySorted R (if ?c then _ else _) => destruct c
  end; [apply StronglySorted_filter |]; exact Hs.
Qed.

Lemma min_price_order_leb (a b : Row.t) :
  lex_leb by_min_price a b = true <-> min_price_order a b.
Proof.
  unfold lex_leb, by_min_price, lex_compare, min_price_order.
  destruct (Qcompare_spec (num_val (Row.price a)) (num_val (Row.price b)));
    destruct (Qcompare_spec (num_val (Row.taxes a)) (num_val (Row.taxes b)));
    destruct (Qcompare_spec (num_val (Row.value_per_mile_cents a))
                            (num_val (Row.value_per_mile_cents b)));
    simpl; split; intros Hgoal; try reflexivity; try discriminate; lra.
Qed.

(** X15. The dashboard's last sort agrees with the backend: under the
    objective "Value per Mile" (any objective other than "Minimum
    Price") it leaves the rows shown in the order the search returned
    them, also after the miles switch has removed rows; under "Minimum
    Price" it shows the same rows ordered by price ascending, then taxes
    ascending, then value per mile descending. *)
Theorem dashboard_sort_keeps_backend_order
    (st : store) (origin destination start_date end_date : string)
    (include_synthetic : bool) (min_layover_minutes : Z)
    (min_vpm_cents max_price : pynum) (airline_allowlist_text : string)
    (max_results : Z) (out : DataFrame)
    (miles_balance : Z) (toggle : bool) (ui_objective : string) :
  run_search st origin destination start_date end_date include_synthetic
    min_layover_minutes min_vpm_cents max_price airline_allowlist_text max_results
  = inr out ->
  let shown := view_rows miles_balance toggle (records out) in
  (ui_objective <> "Minimum Price"%string -> ui_sort ui_objective shown = shown) /\
  (ui_objective = "Minimum Price"%string ->
   Permutation shown (ui_sort ui_objective shown) /\
   StronglySorted min_price_order (ui_sort ui_objective shown)).
Proof.
  intros Hrun shown. unfold run_search in Hrun.
  apply recommend_routes_sorted in Hrun.
  change (objective_order "vpm") with vpm_order in Hrun.
  unfold ui_sort. split.
  - intros Hobj. apply String.eqb_neq in Hobj. rewrite Hobj.
    apply (sort_rows_of_sorted by_vpm vpm_order); [apply vpm_order_leb |].
    apply view_rows_sorted. exact Hrun.
  - intros ->. simpl. split; [apply sort_rows_perm |].
    apply sort_rows_sorted; [apply min_price_order_leb | |];
      unfold min_price_order; intros; lra.
Qed.

End DashboardOrder.

Lemma dashboard_sort_keeps_backend_order_witness :
  ui_sort "Value per Mile"
    (view_rows 0 false [Sample.direct_row; Sample.connection_row])
  = view_rows 0 false [Sample.direct_row; Sample.connection_row] /\
  StronglySorted min_price_order
    (ui_sort "Minimum Price"
       (view_rows 0 false [Sample.direct_row; Sample.connection_row])).
Proof.
  destruct (dashboard_sort_keeps_backend_order Sample.st "LAX" "JFK"
              "2025-08-15" "2025-08-15" true 45 (PyFloat 0) (PyFloat 0) "" 100
              (mkDataFrame cols [Sample.direct_row; Sample.connection_row])
              0 false "Value per Mile" sample_search) as [Hkeep _].
  destruct (dashboard_sort_keeps_backend_order Sample.st "LAX" "JFK"
              "2025-08-15" "2025-08-15" true 45 (PyFloat 0) (PyFloat 0) "" 100
              (mkDataFrame cols [Sample.direct_row; Sample.connection_row])
              0 false "Minimum Price" sample_search) as [_ Hprice].
  split.
  - apply Hkeep. discriminate.
  - apply (Hprice eq_refl).
Defined.

(** Under "Minimum Price" the cheaper connection comes first. *)
Example sample_minimum_price :
  ui_sort "Minimum Price" [Sample.direct_row; Sample.connection_row]
  = [Sample.connection_row; Sample.direct_row].
Proof. vm_compute. reflexivity. Qed.

(** ** Single-date mode and range mode on one day *)


Lemma bind_ret {X} (m : result X) : bind m ret = m.
Proof. destruct m; reflexivity. Qed.

Lemma days_from_to_one (d : Z) : days_from_to d d = [d].
Proof.
  unfold days_from_to. replace (d - d + 1) with 1 by lia. simpl.
  rewrite Z.add_0_r. reflexivity.
Qed.


Section TwoModes.
Context {RT : PyRuntime}.






End TwoModes.

Section TwoModesAgree.
Context {RT : PyRuntime}.



End TwoModesAgree.


(** ** Range mode: a range and its days *)

(** A loop whose passes only append runs from any start as from the
    empty list. *)
Lemma for_each_prefix {A B} (body : A -> list B -> result (list B)) (xs : list A) :
  (forall x acc, body x acc = result_map (app acc) (body x [])) ->
  forall acc, for_each xs body acc = result_map (app acc) (for_each xs body []).
Proof.
  intros Hbody. induction xs as [| x xs IH]; intros acc; simpl.
  - rewrite app_nil_r. reflexivity.
  - rewrite (Hbody x acc). destruct (body x []) as [e | p]; simpl; [reflexivity |].
    rewrite (IH (acc ++ p)), (IH p).
    destruct (for_each xs body []) as [e | q]; simpl; [reflexivity |].
    rewrite app_assoc. reflexivity.
Qed.

Lemma for_each_parts {A B} (body : A -> list B -> result (list B)) (xs : list A)
    (out : list B) :
  (forall x acc, body x acc = result_map (app acc) (body x [])) ->
  for_each xs body [] = inr out ->
  exists parts, Forall2 (fun x p => body x [] = inr p) xs parts /\ out = List.concat parts.
Proof.
  intros Hbody. revert out. induction xs as [| x xs IH]; simpl; intros out H.
  - inversion H; subst. exists []. split; constructor.
  - apply bind_inr in H as (p & Hp & H).
    rewrite (for_each_prefix body xs Hbody p) in H.
    destruct (for_each xs body []) as [e | q] eqn:Hq; [discriminate |].
    simpl in H. inversion H; subst.
    destruct (IH q eq_refl) as (parts & Hparts & ->).
    exists (p :: parts). split; [constructor; assumption | reflexivity].
Qed.

Lemma filter_concat {A} (f : A -> bool) (l : list (list A)) :
  filter f (List.concat l) = List.concat (map (filter f) l).
Proof.
  induction l as [| x l IH]; simpl; [reflexivity |].
  rewrite filter_app, IH. reflexivity.
Qed.

Lemma Permutation_concat {A} (l l' : list (list A)) :
  Forall2 (@Permutation A) l l' -> Permutation (List.concat l) (List.concat l').
Proof.
  induction 1 as [| x y l l' Hxy _ IH]; simpl; [constructor |].
  apply Permutation_app; assumption.
Qed.

Section RangeAndDays.
Context {RT : PyRuntime}.

Lemma score_and_append {X} (calc : result pynum) (row : pynum -> X) (acc : list X) :
  (v <- calc ;; ret (acc ++ [row v]))
  = result_map (app acc) (v <- calc ;; ret ([] ++ [row v])).
Proof. destruct calc; reflexivity. Qed.

(** The rows of a day are appended to the rows gathered before and do
    not depend on them. *)
Lemma rows_of_day_prefix (st : store) (db_path origin destination : string)
    (include_synthetic : bool) (m : Z) (day : Z) (rows : list Row.t) :
  rows_of_day st db_path origin destination include_synthetic m day rows
  = result_map (app rows)
      (rows_of_day st db_path origin destination include_synthetic m day []).
Proof.
  unfold rows_of_day.
  match goal with
  | |- bind (for_each ?xs ?body rows) ?k = _ =>
      rewrite (for_each_prefix body xs) with (acc := rows)
  end; [| intros f acc; apply score_and_append].
  match goal with
  | |- context [for_each ?xs ?body (@nil Row.t)] =>
      destruct (for_each xs body (@nil Row.t)) as [e | direct]
  end; simpl; [reflexivity |].
  destruct include_synthetic; [| reflexivity].
  destruct (build_synthetic_routes st db_path m origin destination
              (date_isoformat day)
              (_get_possible_hub_airports st db_path origin destination
                 (date_isoformat day))) as [e | synthetic]; simpl; [reflexivity |].
  match goal with
  | |- for_each ?xs ?body (rows ++ direct) = _ =>
      rewrite (for_each_prefix body xs) with (acc := (rows ++ direct));
      [rewrite (for_each_prefix body xs) with (acc := direct) |];
      try (intros s acc; apply score_and_append)
  end.
  match goal with
  | |- context [for_each ?xs ?body (@nil Row.t)] =>
      destruct (for_each xs body (@nil Row.t)) as [e | more]
  end; simpl; [reflexivity |].
  rewrite app_assoc. reflexivity.
Qed.

(** A query for the one day [day]. *)
Lemma accumulate_rows_one_day (st : store) (db_path origin destination : string)
    (include_synthetic : bool) (m : Z) (day : Z) :
  fromisoformat_date (date_isoformat day) = inr day ->
  accumulate_rows st db_path origin destination (date_isoformat day)
    (date_isoformat day) include_synthetic m
  = rows_of_day st db_path origin destination include_synthetic m day [].
Proof.
  intros Hparse. unfold accumulate_rows. rewrite Hparse. cbn [bind].
  rewrite Z.ltb_irrefl, days_from_to_one. cbn [for_each].
  destruct (rows_of_day st db_path origin destination include_synthetic m day []);
    reflexivity.
Qed.

(** X17. A range is the sum of its days.  When [date.isoformat] and
    [datetime.fromisoformat] round-trip on the days of the range and
    [max_results] is 0 (no cap), a table that [recommend_routes] returns
    for the range holds exactly the rows, up to their order, of the
    tables that it returns for each single day of the range with the same
    other arguments; each of these single-day calls returns. *)
Theorem range_is_the_sum_of_its_days
    (st : store) (origin destination start_date end_date : string)
    (include_synthetic : bool) (min_layover_minutes : Z) (objective : string)
    (min_vpm_cents max_price : option pynum)
    (airline_allowlist : option (list string)) (db_path : string)
    (d1 d2 : Z) (out : DataFrame) :
  fromisoformat_date start_date = inr d1 ->
  fromisoformat_date end_date = inr d2 ->
  (forall day, Z.min d1 d2 <= day <= Z.max d1 d2 ->
               fromisoformat_date (date_isoformat day) = inr day) ->
  recommend_routes st origin destination start_date end_date include_synthetic
    min_layover_minutes objective min_vpm_cents max_price airline_allowlist
    0 db_path = inr out ->
  exists per_day,
    Forall2 (fun day table =>
               recommend_routes st origin destination (date_isoformat day)
                 (date_isoformat day) include_synthetic min_layover_minutes
                 objective min_vpm_cents max_price airline_allowlist 0 db_path
               = inr table)
            (days_from_to (Z.min d1 d2) (Z.max d1 d2)) per_day /\
    Permutation (records out) (List.concat (map records per_day)).
Proof.
  intros H1 H2 Hround Hrun.
  rewrite recommend_routes_pipeline in Hrun.
  destruct (accumulate_rows st db_path origin destination start_date end_date
              include_synthetic min_layover_minutes) as [e | rows] eqn:Hacc;
    [discriminate |].
  simpl in Hrun. inversion Hrun; subst out; clear Hrun.
  set (keep := keep_row min_vpm_cents max_price airline_allowlist).
  set (table_of := fun rows0 : list Row.t =>
         truncate 0 (objective_sort objective
                       (df_select keep (mkDataFrame cols rows0)))).
  assert (Hperm : forall rows0, Permutation (records (table_of rows0)) (filter keep rows0)).
  { intros rows0. unfold table_of. rewrite records_truncate. simpl.
    apply Permutation_sym.
    apply (objective_sort_sorted objective (df_select keep (mkDataFrame cols rows0))).
    reflexivity. }
  assert (Hdays : exists parts,
            Forall2 (fun day p =>
                       rows_of_day st db_path origin destination include_synthetic
                         min_layover_minutes day [] = inr p)
                    (days_from_to (Z.min d1 d2) (Z.max d1 d2)) parts /\
            rows = List.concat parts).
  { unfold accumulate_rows in Hacc. rewrite H1, H2 in Hacc. cbn [bind] in Hacc.
    assert (Hlist : (let '(a, b) := if d2 <? d1 then (d2, d1) else (d1, d2) in
                     days_from_to a b) = days_from_to (Z.min d1 d2) (Z.max d1 d2)).
    { destruct (d2 <? d1) eqn:Hc;
        [apply Z.ltb_lt in Hc; rewrite Z.min_r, Z.max_l by lia
        | apply Z.ltb_ge in Hc; rewrite Z.min_l, Z.max_r by lia]; reflexivity. }
    assert (Hacc' : for_each (days_from_to (Z.min d1 d2) (Z.max d1 d2))
                      (rows_of_day st db_path origin destination include_synthetic
                         min_layover_minutes) [] = inr rows).
    { rewrite <- Hlist. destruct (d2 <? d1); exact Hacc. }
    apply for_each_parts in Hacc'; [exact Hacc' |].
    intros day acc. apply rows_of_day_prefix. }
  destruct Hdays as (parts & Hparts & ->).
  exists (map table_of parts). split.
  - assert (Hin : forall day, In day (days_from_to (Z.min d1 d2) (Z.max d1 d2)) ->
                              Z.min d1 d2 <= day <= Z.max d1 d2)
      by (intros day; apply in_days_from_to).
    clear Hacc. revert Hin.
    generalize dependent (days_from_to (Z.min d1 d2) (Z.max d1 d2)).
    intros days Hparts.
    induction Hparts as [| day p days parts Hp _ IH]; intros Hin;
      simpl; constructor.
    + rewrite recommend_routes_pipeline.
      rewrite accumulate_rows_one_day by (apply Hround, Hin; left; reflexivity).
      rewrite Hp. reflexivity.
    + apply IH. intros d Hd. apply Hin. right; exact Hd.
  - eapply perm_trans; [apply (Hperm (List.concat parts)) |].
    rewrite filter_concat, map_map.
    apply Permutation_concat.
    clear. induction parts as [| p parts IH]; simpl; constructor; [| exact IH].
    apply Permutation_sym. unfold table_of. rewrite records_truncate. simpl.
    apply Permutation_sym.
    apply (objective_sort_sorted objective (df_select keep (mkDataFrame cols p))).
    reflexivity.
Qed.

End RangeAndDays.

Lemma range_is_the_sum_of_its_days_witness :
  recommend_routes Sample.st "LAX" "JFK" "2025-08-14" "2025-08-16" true 45
    "vpm" None None None 0 default_db
  = inr (mkDataFrame cols [Sample.direct_row; Sample.connection_row]) /\
  exists per_day,
    Forall2 (fun day table =>
               recommend_routes Sample.st "LAX" "JFK" (date_isoformat day)
                 (date_isoformat day) true 45 "vpm" None None None 0 default_db
               = inr table)
            (days_from_to 20314 20316) per_day /\
    Permutation [Sample.direct_row; Sample.connection_row]
                (List.concat (map records per_day)).
Proof.
  assert (H : recommend_routes Sample.st "LAX" "JFK" "2025-08-14" "2025-08-16"
                true 45 "vpm" None None None 0 default_db
              = inr (mkDataFrame cols [Sample.direct_row; Sample.connection_row]))
    by (vm_compute; reflexivity).
  split; [exact H |].
  apply (range_is_the_sum_of_its_days Sample.st "LAX" "JFK" "2025-08-14" "2025-08-16"
           true 45 "vpm" None None None default_db 20314 20316
           (mkDataFrame cols [Sample.direct_row; Sample.connection_row])).
  - vm_compute; reflexivity.
  - vm_compute; reflexivity.
  - intros day Hday.
    assert (Hcases : day = 20314 \/ day = 20315 \/ day = 20316) by lia.
    destruct Hcases as [-> | [-> | ->]]; vm_compute; reflexivity.
  - exact H.
Defined.

(** ** Range mode: the result cap *)

Section ResultCap.
Context {RT : PyRuntime}.

(** X18. Raising the cap only appends rows: for [0 < k <= k'], the table
    [recommend_routes] returns with [max_results = k] is the first [k]
    rows of the table it returns with [max_results = k'], and either call
    raises exactly when the other does, with the same exception. *)
Theorem smaller_cap_is_a_prefix
    (st : store) (origin destination start_date end_date : string)
    (include_synthetic : bool) (min_layover_minutes : Z) (objective : string)
    (min_vpm_cents max_price : option pynum)
    (airline_allowlist : option (list string)) (db_path : string) (k k' : Z) :
  0 < k <= k' ->
  recommend_routes st origin destination start_date end_date include_synthetic
    min_layover_minutes objective min_vpm_cents max_price airline_allowlist
    k db_path
  = result_map (head k)
      (recommend_routes st origin destination start_date end_date include_synthetic
         min_layover_minutes objective min_vpm_cents max_price airline_allowlist
         k' db_path).
Proof.
  intros Hk. rewrite !recommend_routes_pipeline.
  destruct (accumulate_rows st db_path origin destination start_date end_date
              include_synthetic min_layover_minutes) as [e | rows]; simpl;
    [reflexivity |].
  f_equal. unfold truncate, head.
  destruct (k =? 0) eqn:Hk0; [apply Z.eqb_eq in Hk0; lia |].
  destruct (k' =? 0) eqn:Hk0'; [apply Z.eqb_eq in Hk0'; lia |].
  simpl. f_equal. unfold slice_to.
  destruct (0 <=? k) eqn:H1; [| apply Z.leb_gt in H1; lia].
  destruct (0 <=? k') eqn:H2; [| apply Z.leb_gt in H2; lia].
  rewrite firstn_firstn. f_equal. lia.
Qed.

End ResultCap.

Lemma smaller_cap_is_a_prefix_witness :
  0 < 1 <= 100 /\
  recommend_routes Sample.st "LAX" "JFK" "2025-08-15" "2025-08-15" true 45
    "vpm" None None None 1 default_db
  = inr (mkDataFrame cols [Sample.direct_row]).
Proof.
  split; [lia |].
  rewrite (smaller_cap_is_a_prefix Sample.st "LAX" "JFK" "2025-08-15" "2025-08-15"
             true 45 "vpm" None None None default_db 1 100) by lia.
  vm_compute. reflexivity.
Defined.
